(** * ts-result: [ok], [err] and [tryCatch] over a small model of the host

    The library (src/index.ts) is three functions.  What they do is decided
    by the host language's dynamic tests: [typeof], [instanceof Error],
    the [in] operator, string conversion inside a template literal, [new],
    [throw] / [try]-[catch] and promise chaining.  The embedding therefore
    has two layers:

    - a model of the host: values, a heap of objects with prototype links
      (object identity is the heap location), the code of constructors,
      completions (return or throw) and promise settlements;
    - the three functions of the library, written over that host in a
      state-and-exception monad, statement by statement. *)

From Stdlib Require Import ZArith String List Bool Lia.
From stdpp Require Import base option list strings gmap pretty.

(** ** Host values *)

Definition loc := nat.

(** Numbers are the safe integers, the integral values of magnitude at most
    2^53 - 1: each of them is a number of the host and prints as its plain
    decimal digits. *)
Definition max_safe_integer : Z := 9007199254740991.

Definition safe (n : Z) : bool := (Z.abs n <=? max_safe_integer)%Z.

Definition number : Type := { n : Z | Is_true (safe n) }.

(** The eight [typeof] families; objects and functions are references into
    the heap. *)
Inductive value : Type :=
| VUndefined
| VNull
| VBool (b : bool)
| VNumber (n : number)
| VBigInt (n : Z)
| VString (s : string)
| VSymbol (id : nat)
| VObject (l : loc).

#[global] Instance value_eq_dec : EqDecision value.
Proof. solve_decision. Defined.

(** The number [n], given that it is a safe integer. *)
Definition num (n : Z) (H : Is_true (safe n)) : value := VNumber (n ↾ H).

(** How a statement or call ends: normally with a value, or by a throw. *)
Inductive completion (A : Type) : Type :=
| Normal (a : A)
| Abrupt (thrown : value).
Arguments Normal {A} a.
Arguments Abrupt {A} thrown.

(** How a promise ends: fulfilled, rejected, or never settled. *)
Inductive settlement (A : Type) : Type :=
| Fulfils (a : A)
| Rejects (reason : value)
| Pends.
Arguments Fulfils {A} a.
Arguments Rejects {A} reason.
Arguments Pends {A}.

(** A heap object.
    - [o_proto]: the [[Prototype]] link.
    - [o_call]: the object is callable ([typeof] says "function").
    - [o_promise]: the object is a promise made by the host (it has the
      internal promise state).
    - [o_props]: own data properties.
    - [o_tostring]: the text the object converts to in a string context,
      [None] when that conversion raises a TypeError.
    - [o_settles]: for a promise of the host, the state it ends in; for
      another object whose [then] is a method of the program, how adopting
      the object through that method finally settles. *)
Record obj : Type := {
  o_proto : option loc;
  o_call : bool;
  o_promise : bool;
  o_props : gmap string value;
  o_tostring : option string;
  o_settles : settlement value
}.

Definition heap := list obj.

(** Locations of the intrinsics the library and its promise chain reach. *)
Definition Object_prototype : loc := 0.
Definition Function_prototype : loc := 1.
Definition Error_prototype : loc := 2.
Definition Error_constructor : loc := 3.
Definition TypeError_prototype : loc := 4.
Definition TypeError_constructor : loc := 5.
Definition Promise_prototype : loc := 6.
Definition Promise_constructor : loc := 7.
Definition Promise_then : loc := 8.
Definition Promise_catch : loc := 9.

(** ** Host operations on the heap *)

(** Property read along the prototype chain; [None] when no object on the
    chain has the key.  The fuel bounds the walk by the number of objects. *)
Fixpoint get_property (fuel : nat) (h : heap) (l : loc) (k : string) : option value :=
  match fuel with
  | O => None
  | S n =>
      match h !! l with
      | None => None
      | Some o =>
          match o_props o !! k with
          | Some v => Some v
          | None =>
              match o_proto o with
              | Some p => get_property n h p k
              | None => None
              end
          end
      end
  end.

Definition get (h : heap) (v : value) (k : string) : option value :=
  match v with
  | VObject l => get_property (S (length h)) h l k
  | _ => None
  end.

(** [k in v], for a [v] that is an object. *)
Definition has_property (h : heap) (v : value) (k : string) : bool :=
  bool_decide (is_Some (get h v k)).

(** The walk of [instanceof]: does [target] occur among the prototypes of
    [l], starting at the prototype of [l] (not at [l] itself)? *)
Fixpoint inherits_from (fuel : nat) (h : heap) (l target : loc) : bool :=
  match fuel with
  | O => false
  | S n =>
      match h !! l with
      | None => false
      | Some o =>
          match o_proto o with
          | None => false
          | Some p => if decide (p = target) then true else inherits_from n h p target
          end
      end
  end.

(** [v instanceof Error]: false on primitives. *)
Definition instanceof_Error (h : heap) (v : value) : bool :=
  match v with
  | VObject l => inherits_from (S (length h)) h l Error_prototype
  | _ => false
  end.

Definition is_callable (h : heap) (l : loc) : bool :=
  match h !! l with
  | Some o => o_call o
  | None => false
  end.

Definition typeof (h : heap) (v : value) : string :=
  match v with
  | VUndefined => "undefined"
  | VNull => "object"
  | VBool _ => "boolean"
  | VNumber _ => "number"
  | VBigInt _ => "bigint"
  | VString _ => "string"
  | VSymbol _ => "symbol"
  | VObject l => if is_callable h l then "function" else "object"
  end.

(** ** The code of constructors *)

(** What [new C(...args)] comes to: the constructor runs as code of the
    program, on the heap, and either yields an object of the heap it
    leaves (the instance it initialised, or another object it chose to
    return) or throws. *)
Inductive construct_outcome : Type :=
| Yields (h' : heap) (l : loc) (live : is_Some (h' !! l))
| Raises (h' : heap) (v : value).

Definition constructor : Type := list value -> heap -> construct_outcome.

(** ** The state-and-exception monad *)

(** The heap; a record of the arguments the error transformer was called
    with by the library, oldest first; and the code of the functions that
    can be constructed, by location (absent for arrows, methods and plain
    objects). *)
Record state : Type := {
  st_heap : heap;
  st_calls : list value;
  st_code : loc -> option constructor
}.

Definition M (A : Type) : Type := state -> state * completion A.

Definition ret {A} (a : A) : M A := fun st => (st, Normal a).

Definition throw {A} (v : value) : M A := fun st => (st, Abrupt v).

Definition bind {A B} (m : M A) (f : A -> M B) : M B :=
  fun st =>
    match m st with
    | (st', Normal a) => f a st'
    | (st', Abrupt v) => (st', Abrupt v)
    end.

Notation "x <- m ;; k" := (bind m (fun x => k))
  (at level 100, m at next level, right associativity).

(** [try { body } catch (e) { handler e }] *)
Definition try_catch {A} (body : M A) (handler : value -> M A) : M A :=
  fun st =>
    match body st with
    | (st', Normal a) => (st', Normal a)
    | (st', Abrupt v) => handler v st'
    end.

Definition get_heap : M heap := fun st => (st, Normal (st_heap st)).

(** The state with another heap. *)
Definition with_heap (st : state) (h : heap) : state :=
  {| st_heap := h; st_calls := st_calls st; st_code := st_code st |}.

(** The state after one allocation. *)
Definition extend (st : state) (o : obj) : state :=
  {| st_heap := st_heap st ++ [o]; st_calls := st_calls st; st_code := st_code st |}.

(** Allocation: the new object gets the next free location. *)
Definition alloc (o : obj) : M value :=
  fun st => (extend st o, Normal (VObject (length (st_heap st)))).

(** ** Built-in errors *)

(** The trace text recorded in [stack]: the header line, then the frames,
    whose text is the host's business. *)
Definition capture_stack (header : string) : string :=
  header +:+ "
    at <anonymous>".

Definition error_header (name msg : string) : string :=
  if String.eqb msg "" then name else name +:+ ": " +:+ msg.

(** What [new] allocates for a built-in error class: the instance carries
    its message and its trace. *)
Definition error_object (name msg : string) (proto : loc) : obj :=
  {| o_proto := Some proto;
     o_call := false;
     o_promise := false;
     o_props := {[ "message" := VString msg;
                   "stack" := VString (capture_stack (error_header name msg)) ]};
     o_tostring := Some (error_header name msg);
     o_settles := Pends |}.

(** The same without a message. *)
Definition bare_error_object (name : string) (proto : loc) : obj :=
  {| o_proto := Some proto;
     o_call := false;
     o_promise := false;
     o_props := {[ "stack" := VString (capture_stack name) ]};
     o_tostring := Some name;
     o_settles := Pends |}.

(** A fresh instance of a built-in error class, with a message. *)
Definition alloc_error (proto : loc) (name msg : string) : M value :=
  alloc (error_object name msg proto).

Definition new_TypeError (msg : string) : M value :=
  alloc_error TypeError_prototype "TypeError" msg.

(** String conversion as a template literal or [new Error(message)]
    performs it. *)
Definition ToString (v : value) : M string :=
  match v with
  | VUndefined => ret "undefined"
  | VNull => ret "null"
  | VBool true => ret "true"
  | VBool false => ret "false"
  | VNumber n => ret (pretty (`n))
  | VBigInt n => ret (pretty n)
  | VString s => ret s
  | VSymbol _ =>
      e <- new_TypeError "Cannot convert a Symbol value to a string";;
      throw e
  | VObject l =>
      h <- get_heap;;
      match h !! l ≫= o_tostring with
      | Some s => ret s
      | None =>
          e <- new_TypeError "Cannot convert object to primitive value";;
          throw e
      end
  end.

(** [new Error(message)] *)
Definition new_Error (message : value) : M value :=
  match message with
  | VUndefined => alloc (bare_error_object "Error" Error_prototype)
  | _ =>
      msg <- ToString message;;
      alloc_error Error_prototype "Error" msg
  end.

(** [new C(...args)]: a TypeError when [C] is not a function that can be
    constructed; otherwise the code of [C] runs, and [new] yields what it
    yields, in the heap it leaves. *)
Definition construct (C : value) (args : list value) : M value :=
  fun st =>
    match C with
    | VObject c =>
        match st_code st c with
        | Some code =>
            match code args (st_heap st) with
            | Yields h' l _ => (with_heap st h', Normal (VObject l))
            | Raises h' v => (with_heap st h', Abrupt v)
            end
        | None => (e <- new_TypeError "not a constructor";; throw e) st
        end
    | _ => (e <- new_TypeError "not a constructor";; throw e) st
    end.

(** ** Callers' code *)

(** The zero-argument computation handed to [tryCatch], and the error
    transformer: host functions that may allocate, return or throw. *)
Definition computation : Type := heap -> heap * completion value.
Definition transformer : Type := value -> heap -> heap * completion value.

(** [expression()] *)
Definition call (f : computation) : M value :=
  fun st =>
    let (h', c) := f (st_heap st) in
    (with_heap st h', c).

(** The state after the transformer has been called on [error] and has
    left the heap [h]. *)
Definition called (st : state) (h : heap) (error : value) : state :=
  {| st_heap := h; st_calls := st_calls st ++ [error]; st_code := st_code st |}.

(** [errorTransformer(error)]; the call is recorded. *)
Definition call_transformer (f : transformer) (error : value) : M value :=
  fun st =>
    let (h', c) := f error (st_heap st) in
    (called st h' error, c).

(** The default transformer, [(e) => e as E]. *)
Definition default_transformer : transformer := fun e h => (h, Normal e).

(** ** Promise chaining *)

(** The functions of the host that the model names. *)
Definition host_functions : list loc :=
  [ Function_prototype; Error_constructor; TypeError_constructor;
    Promise_constructor; Promise_then; Promise_catch ].

(** What a read of a promise method finds: the method of the host that is
    looked for, a function of the program, another function of the host,
    or nothing that can be called. *)
Inductive method_kind : Type :=
| HostMethod
| ProgramMethod
| ForeignMethod
| NoMethod.

Definition method_of (h : heap) (v : value) (k : string) (intrinsic : loc) : method_kind :=
  match get h v k with
  | Some (VObject f) =>
      if decide (f = intrinsic) then HostMethod
      else if bool_decide (f ∈ host_functions) then ForeignMethod
      else if is_callable h f then ProgramMethod
      else NoMethod
  | _ => NoMethod
  end.

(** [Promise.prototype] is as the host made it: a promise that has no own
    properties finds the host's [then] and [catch] and the host's
    constructor. *)
Definition promise_prototype_intact (h : heap) : bool :=
  bool_decide (get h (VObject Promise_prototype) "then" = Some (VObject Promise_then))
  && bool_decide (get h (VObject Promise_prototype) "catch" = Some (VObject Promise_catch))
  && bool_decide (get h (VObject Promise_prototype) "constructor"
                  = Some (VObject Promise_constructor)).

Definition is_promise (h : heap) (v : value) : bool :=
  match v with
  | VObject l => default false (o_promise <$> h !! l)
  | _ => false
  end.

Definition settles (h : heap) (v : value) : settlement value :=
  match v with
  | VObject l => default Pends (o_settles <$> h !! l)
  | _ => Pends
  end.

(** What the expression [Promise.resolve(res).then(f).catch(g)] of lines
    126-128 comes to, for an object [res].
    - [Chains source]: the two reactions are attached, through the host's
      own [then] and [catch], to a promise that settles as [source].
    - [NotAFunction]: the promise is [res] itself and its [then] cannot be
      called, so the call [res.then(f)] raises a TypeError on the spot.
    - [HandsOver]: the chain runs through promise machinery that the
      program has replaced, or that is applied to an object it was not made
      for; what happens then is not the library's doing and is not
      modelled. *)
Inductive deferral_kind : Type :=
| Chains (source : settlement value)
| NotAFunction
| HandsOver.

(** [Promise.resolve(res)] is [res] itself when [res] is a promise of the
    host whose [constructor] reads as the host's; the call of [then] is
    then a read of [res.then].  Otherwise it is a new promise, whose
    methods are read from [Promise.prototype], and which takes up [res]:
    as a plain value when [res.then] cannot be called, through [res.then]
    when that is a method of the program on an object of the program. *)
Definition deferral (h : heap) (res : value) : deferral_kind :=
  if is_promise h res
     && bool_decide (get h res "constructor" = Some (VObject Promise_constructor))
  then
    match method_of h res "then" Promise_then with
    | NoMethod => NotAFunction
    | HostMethod =>
        if promise_prototype_intact h then Chains (settles h res) else HandsOver
    | ProgramMethod | ForeignMethod => HandsOver
    end
  else if promise_prototype_intact h then
    match method_of h res "then" Promise_then with
    | NoMethod => Chains (Fulfils res)
    | ProgramMethod => if is_promise h res then HandsOver else Chains (settles h res)
    | HostMethod | ForeignMethod => HandsOver
    end
  else HandsOver.

(** ** The library (src/index.ts) *)

(** [Result]: the object literal with the three fields [ok], [val], [err];
    [undefined] in a field is [VUndefined]. *)
Record result : Type := {
  r_ok : bool;
  r_val : value;
  r_err : value
}.

(** What [tryCatch] hands back: a plain [Result]; the promise
    [Promise.resolve(res).then(ok).catch(makeErrorResult)], kept as the
    settlement of the promise that the two reactions wait on; or whatever
    replaced promise machinery returned, of which nothing is modelled. *)
Inductive returned : Type :=
| Plain (r : result)
| Deferred (source : settlement value)
| HandedOver.

(** index.ts, 31-33 *)
Definition ok (val : value) : result :=
  {| r_ok := true; r_val := val; r_err := VUndefined |}.

(** index.ts, 61-78 *)
Definition err (stringOrErrOrErrClass : value) (args : list value) : M result :=
  h <- get_heap;;
  if String.eqb (typeof h stringOrErrOrErrClass) "string" then
    e <- new_Error stringOrErrOrErrClass;;
    ret {| r_ok := false; r_val := VUndefined; r_err := e |}
  else if instanceof_Error h stringOrErrOrErrClass then
    ret {| r_ok := false; r_val := VUndefined; r_err := stringOrErrOrErrClass |}
  else if String.eqb (typeof h stringOrErrOrErrClass) "function"
          && instanceof_Error h (default VUndefined (get h stringOrErrOrErrClass "prototype")) then
    e <- construct stringOrErrOrErrClass args;;
    ret {| r_ok := false; r_val := VUndefined; r_err := e |}
  else
    e <- new_Error (VString "err expects a string, Error, or Error class as an argument");;
    throw e.

(** index.ts, 117-118: the binding [error] of [makeErrorResult]. *)
Definition normalize (e : value) : M value :=
  h <- get_heap;;
  if instanceof_Error h e then ret e
  else
    rendering <- ToString e;;
    h' <- get_heap;;
    new_Error (VString ("Unexpected throw value '" +:+ rendering +:+ "' of type " +:+ typeof h' e)).

(** index.ts, 116-120 *)
Definition makeErrorResult (errorTransformer : transformer) (e : value) : M result :=
  error <- normalize e;;
  replaced <- call_transformer errorTransformer error;;
  err replaced [].

(** index.ts, 121-138.  The chain of lines 126-128 is inside the [try]: a
    TypeError raised by the call of [then] is caught by line 134.  The
    closures the library makes and the promises of the chain are not
    objects of the modelled heap: nothing the program can do reaches them
    before [tryCatch] returns. *)
Definition tryCatch (expression : computation) (errorTransformer : transformer) : M returned :=
  try_catch
    (res <- call expression;;
     h <- get_heap;;
     if String.eqb (typeof h res) "object"
        && bool_decide (res <> VNull)
        && has_property h res "then"
     then
       match deferral h res with
       | Chains source => ret (Deferred source)
       | NotAFunction =>
           e <- new_TypeError "Promise.resolve(...).then is not a function";;
           throw e
       | HandsOver => ret HandedOver
       end
     else ret (Plain (ok res)))
    (fun e =>
       r <- makeErrorResult errorTransformer e;;
       ret (Plain r)).

(** The reaction [.then((val) => ok(val))]. *)
Definition then_ok (p : settlement value) : settlement result :=
  match p with
  | Fulfils val => Fulfils (ok val)
  | Rejects e => Rejects e
  | Pends => Pends
  end.

(** The reaction [.catch((e) => makeErrorResult(e))], run in the state the
    program is in when the rejection is delivered. *)
Definition catch_makeErrorResult (errorTransformer : transformer)
    (p : settlement result) (st : state) : state * settlement result :=
  match p with
  | Rejects e =>
      match makeErrorResult errorTransformer e st with
      | (st', Normal r) => (st', Fulfils r)
      | (st', Abrupt x) => (st', Rejects x)
      end
  | _ => (st, p)
  end.

(** How what [tryCatch] returned settles when awaited.  (For [HandedOver]
    nothing is modelled; no statement below is about it.) *)
Definition await (errorTransformer : transformer) (d : returned) (st : state)
  : state * settlement result :=
  match d with
  | Plain r => (st, Fulfils r)
  | Deferred source => catch_makeErrorResult errorTransformer (then_ok source) st
  | HandedOver => (st, Pends)
  end.

(** ** Notions the specification uses *)

(** A text string. *)
Definition is_text (v : value) : bool :=
  match v with
  | VString _ => true
  | _ => false
  end.

(** An error-capability object: in this host, an object that inherits from
    [Error.prototype]. *)
Definition is_error_object (h : heap) (v : value) : bool := instanceof_Error h v.

(** The test of lines 72-73, with [Error] itself let in: a function whose
    [prototype] property is [Error.prototype] or inherits from it, whether
    the function can be constructed or not. *)
Definition has_error_prototype (h : heap) (v : value) : bool :=
  match v with
  | VObject c =>
      is_callable h c &&
      match get h v "prototype" with
      | Some (VObject p) =>
          bool_decide (p = Error_prototype)
          || inherits_from (S (length h)) h p Error_prototype
      | _ => false
      end
  | _ => false
  end.

(** A constructor whose instances satisfy the error capability: a function
    that can be constructed and whose [prototype] property, to which [new]
    links the instances, is [Error.prototype] or inherits from it. *)
Definition is_error_class (st : state) (v : value) : bool :=
  match v with
  | VObject c => bool_decide (is_Some (st_code st c)) && has_error_prototype (st_heap st) v
  | _ => false
  end.

Definition message_of (h : heap) (v : value) : option value := get h v "message".

(** The trace is present: [stack] reads as some text. *)
Definition has_trace (h : heap) (v : value) : Prop :=
  exists t, get h v "stack" = Some (VString t).

(** [l] is not in use in [h]: an object placed there is new. *)
Definition unused (h : heap) (l : loc) : Prop := h !! l = None.

Definition misuse_message : string :=
  "err expects a string, Error, or Error class as an argument".

(** The text a value converts to, when it has one: symbols have none, and
    an object has the one its conversion protocol yields. *)
Definition rendering (h : heap) (v : value) : option string :=
  match v with
  | VUndefined => Some "undefined"
  | VNull => Some "null"
  | VBool true => Some "true"
  | VBool false => Some "false"
  | VNumber n => Some (pretty (`n))
  | VBigInt n => Some (pretty n)
  | VString s => Some s
  | VSymbol _ => None
  | VObject l => h !! l ≫= o_tostring
  end.

(** The message line 118 builds. *)
Definition unexpected_throw_message (rendered type : string) : string :=
  "Unexpected throw value '" +:+ rendered +:+ "' of type " +:+ type.

(** Normalization as the specification words it: an error object is used
    as it is; any other value that has a text gives a new generic error
    with the message above, placed at the next free location.  The heap
    and the error that the transformer is to receive. *)
Definition normalized_error (h : heap) (v : value) : option (heap * value) :=
  if is_error_object h v then Some (h, v)
  else
    match rendering h v with
    | Some s =>
        Some (h ++ [error_object "Error" (unexpected_throw_message s (typeof h v))
                      Error_prototype],
              VObject (length h))
    | None => None
    end.

(** Which of the two slots is filled is decided by the tag: on success the
    payload slot holds the payload (any value, [undefined] included) and
    the error slot is [undefined]; on failure the payload slot is
    [undefined] and the error slot holds an object of the heap. *)
Definition variant_invariant (h : heap) (r : result) : Prop :=
  if r_ok r then r_err r = VUndefined
  else r_val r = VUndefined /\ exists l, r_err r = VObject l /\ is_Some (h !! l).

(** The specification's notion of a deferred value: it exposes a then-like
    method, a [then] property (own or inherited) that is callable. *)
Definition exposes_then_method (h : heap) (v : value) : bool :=
  match get h v "then" with
  | Some (VObject f) => is_callable h f
  | _ => false
  end.

(** An object that is not a function and has a [then] property of any
    kind. *)
Definition object_with_then (h : heap) (v : value) : bool :=
  match v with
  | VObject l => negb (is_callable h l) && bool_decide (is_Some (get h v "then"))
  | _ => false
  end.

(** The split as the specification words it: a value that exposes a
    then-like method gives a deferred result, any other value gives [ok]
    of it at once. *)
Definition defers_exactly_then_methods : Prop :=
  forall (st : state) (expression : computation) (tr : transformer)
         (h1 : heap) (res : value),
    expression (st_heap st) = (h1, Normal res) ->
    (exposes_then_method h1 res = true ->
     exists source,
       tryCatch expression tr st = (with_heap st h1, Normal (Deferred source)))
    /\ (exposes_then_method h1 res = false ->
        tryCatch expression tr st = (with_heap st h1, Normal (Plain (ok res)))).

(** The misuse rule as the specification words it: an argument that is
    none of a text, an error object and an error class makes [err] throw
    an error with the misuse message. *)
Definition err_rejects_every_other_argument : Prop :=
  forall (st : state) (x : value) (args : list value),
    is_text x = false ->
    is_error_object (st_heap st) x = false ->
    is_error_class st x = false ->
    exists st' e,
      err x args st = (st', Abrupt e)
      /\ message_of (st_heap st') e = Some (VString misuse_message).

(** The success rule as the specification words it: when the computation
    returns a value that is not deferred (it exposes no then-like method),
    or a deferred value that resolves, the transformer is not called. *)
Definition transformer_idle_when_computation_returns : Prop :=
  forall (st : state) (expression : computation) (tr : transformer)
         (h1 : heap) (res : value),
    expression (st_heap st) = (h1, Normal res) ->
    (exposes_then_method h1 res = false \/ exists p, settles h1 res = Fulfils p) ->
    st_calls (fst (tryCatch expression tr st)) = st_calls st.

(** The state in which the catch block runs after the call of [then] has
    failed, and the TypeError it is given. *)
Definition after_failed_then (st : state) (h1 : heap) : state :=
  extend (with_heap st h1)
    (error_object "TypeError" "Promise.resolve(...).then is not a function"
       TypeError_prototype).

(** ** Concrete realms and callers, for examples *)

Definition plain_object (proto : loc) (props : gmap string value) : obj :=
  {| o_proto := Some proto; o_call := false; o_promise := false;
     o_props := props; o_tostring := Some "[object Object]"; o_settles := Pends |}.

Definition function_object (props : gmap string value) (settles : settlement value) : obj :=
  {| o_proto := Some Function_prototype; o_call := true; o_promise := false;
     o_props := props; o_tostring := Some "function () { }"; o_settles := settles |}.

Definition class_object (parent prototype : loc) : obj :=
  {| o_proto := Some parent; o_call := true; o_promise := false;
     o_props := {[ "prototype" := VObject prototype ]};
     o_tostring := Some "class { }"; o_settles := Pends |}.

(** A promise of the host, in the state [settles], with the own
    properties [props]. *)
Definition promise_object (props : gmap string value) (settles : settlement value) : obj :=
  {| o_proto := Some Promise_prototype; o_call := false; o_promise := true;
     o_props := props; o_tostring := Some "[object Promise]"; o_settles := settles |}.

Definition realm : heap :=
  [ (* 0: Object.prototype *)
    {| o_proto := None; o_call := false; o_promise := false;
       o_props := ∅; o_tostring := Some "[object Object]"; o_settles := Pends |};
    (* 1: Function.prototype *)
    {| o_proto := Some Object_prototype; o_call := true; o_promise := false;
       o_props := ∅; o_tostring := Some "function () { [native code] }";
       o_settles := Pends |};
    (* 2: Error.prototype *)
    {| o_proto := Some Object_prototype; o_call := false; o_promise := false;
       o_props := {[ "name" := VString "Error"; "message" := VString "" ]};
       o_tostring := Some "Error"; o_settles := Pends |};
    (* 3: Error *)
    class_object Function_prototype Error_prototype;
    (* 4: TypeError.prototype *)
    {| o_proto := Some Error_prototype; o_call := false; o_promise := false;
       o_props := {[ "name" := VString "TypeError"; "message" := VString "" ]};
       o_tostring := Some "TypeError"; o_settles := Pends |};
    (* 5: TypeError *)
    class_object Error_constructor TypeError_prototype ].

Lemma fresh_is_live (h : heap) (o : obj) : is_Some ((h ++ [o]) !! length h).
Proof. exists o. rewrite lookup_app_r by lia. by rewrite Nat.sub_diag. Qed.

(** The code of a built-in error constructor: the first argument, when it
    is not [undefined], is converted to the message. *)
Definition builtin_error_constructor (proto : loc) (name : string) : constructor :=
  fun args h =>
    match hd VUndefined args with
    | VUndefined =>
        Yields (h ++ [bare_error_object name proto]) (length h) (fresh_is_live _ _)
    | message =>
        match rendering h message with
        | Some msg =>
            Yields (h ++ [error_object name msg proto]) (length h) (fresh_is_live _ _)
        | None =>
            Raises (h ++ [error_object "TypeError" "Cannot convert to a string"
                            TypeError_prototype])
                   (VObject (length h))
        end
    end.

(** The code of [class Test {}]: a new plain object linked to the class's
    prototype. *)
Definition plain_constructor (proto : loc) : constructor :=
  fun _ h => Yields (h ++ [plain_object proto ∅]) (length h) (fresh_is_live _ _).

Definition realm_code : loc -> option constructor :=
  fun c =>
    if decide (c = Error_constructor)
    then Some (builtin_error_constructor Error_prototype "Error")
    else if decide (c = TypeError_constructor)
    then Some (builtin_error_constructor TypeError_prototype "TypeError")
    else None.

(** The code of the realm, with the code [k] for the function at [c]. *)
Definition code_with (c : loc) (k : constructor) : loc -> option constructor :=
  fun l => if decide (l = c) then Some k else realm_code l.

Definition start_with (code : loc -> option constructor) (h : heap) : state :=
  {| st_heap := h; st_calls := []; st_code := code |}.

Definition start (h : heap) : state := start_with realm_code h.

(** [class Test {}]: location 6 is [Test.prototype], location 7 is [Test]. *)
Definition realm_with_Test : heap :=
  realm ++ [ plain_object Object_prototype ∅;
             class_object Function_prototype 6 ].

Definition Test_code : loc -> option constructor := code_with 7 (plain_constructor 6).

(** [const f = () => {}; f.prototype = new Error('p')]: location 6 is the
    error, location 7 the arrow function, which cannot be constructed. *)
Definition realm_with_arrow : heap :=
  realm ++ [ error_object "Error" "p" Error_prototype;
             function_object {[ "prototype" := VObject 6 ]} Pends ].

(** Two subclasses of [Error] with a prototype of their own (location 6).
    The constructor of the first (location 7) returns a plain object
    instead of the instance; the constructor of the second (location 8)
    allocates an error and throws it. *)
Definition realm_with_classes : heap :=
  realm ++ [ plain_object Error_prototype ∅;
             class_object Error_constructor 6;
             class_object Error_constructor 6 ].

Definition overriding_constructor : constructor :=
  fun _ h => Yields (h ++ [plain_object Object_prototype ∅]) (length h) (fresh_is_live _ _).

Definition refusing_constructor : constructor :=
  fun _ h => Raises (h ++ [error_object "TypeError" "refused" TypeError_prototype])
                    (VObject (length h)).

Definition classes_code : loc -> option constructor :=
  fun l =>
    if decide (l = 7) then Some overriding_constructor
    else if decide (l = 8) then Some refusing_constructor
    else realm_code l.

(** [Object.create(null)] at location 6: an object with no prototype and no
    conversion to text. *)
Definition realm_with_bare_object : heap :=
  realm ++ [ {| o_proto := None; o_call := false; o_promise := false;
                o_props := ∅; o_tostring := None; o_settles := Pends |} ].

(** A realm with promises and other carriers of a [then] property. *)
Definition realm_with_promises : heap :=
  realm ++
  [ (* 6: Promise.prototype *)
    plain_object Object_prototype
      {[ "then" := VObject Promise_then; "catch" := VObject Promise_catch;
         "constructor" := VObject Promise_constructor ]};
    (* 7: Promise *) class_object Function_prototype Promise_prototype;
    (* 8: Promise.prototype.then *) function_object ∅ Pends;
    (* 9: Promise.prototype.catch *) function_object ∅ Pends;
    (* 10: new Error('unexpected error') *)
    error_object "Error" "unexpected error" Error_prototype;
    (* 11: Promise.reject(<10>) *) promise_object ∅ (Rejects (VObject 10));
    (* 12: Promise.resolve('x') *) promise_object ∅ (Fulfils (VString "x"));
    (* 13: Promise.reject('x') *) promise_object ∅ (Rejects (VString "x"));
    (* 14: a function of the program, used as a then method *)
    function_object ∅ Pends;
    (* 15: a function that carries the then method <14> *)
    function_object {[ "then" := VObject 14 ]} (Fulfils (VString "x"));
    (* 16: { then: 1 } *)
    plain_object Object_prototype {[ "then" := num 1 I ]};
    (* 17: p = Promise.resolve('x'); p.then = 1 *)
    promise_object {[ "then" := num 1 I ]} (Fulfils (VString "x"));
    (* 18: { then: <14> }, which adopting settles with 'y' *)
    {| o_proto := Some Object_prototype; o_call := false; o_promise := false;
       o_props := {[ "then" := VObject 14 ]}; o_tostring := Some "[object Object]";
       o_settles := Fulfils (VString "y") |} ].

(** The transformer of the README: an anticipated error is replaced, any
    other error is thrown again.  (The replacement is linked to
    [Error.prototype] directly; the prototype of its own class plays no
    part here.) *)
Definition rethrow_unexpected : transformer :=
  fun e h =>
    match get h e "message" with
    | Some (VString m) =>
        if String.eqb m "expected error"
        then (h ++ [error_object "AnticipatedError" "" Error_prototype],
              Normal (VObject (length h)))
        else (h, Abrupt e)
    | _ => (h, Abrupt e)
    end.

(** A transformer that replaces every error by a new one, one that returns
    a text, and one that returns nothing. *)
Definition always_replaces : transformer :=
  fun _ h => (h ++ [error_object "Error" "replacement" Error_prototype],
              Normal (VObject (length h))).
Definition returns_text : transformer := fun _ h => (h, Normal (VString "replaced")).
Definition returns_nothing : transformer := fun _ h => (h, Normal VUndefined).

(** [() => { throw new Error('other') }] *)
Definition throws_other : computation :=
  fun h => (h ++ [error_object "Error" "other" Error_prototype],
            Abrupt (VObject (length h))).

(** ** Basic facts about the host *)

Lemma typeof_is_string h v :
  String.eqb (typeof h v) "string" = is_text v.
Proof.
  destruct v; simpl; try reflexivity.
  destruct (is_callable h l); reflexivity.
Qed.

Lemma typeof_is_function h v :
  String.eqb (typeof h v) "function" =
  match v with VObject l => is_callable h l | _ => false end.
Proof.
  destruct v; simpl; try reflexivity.
  destruct (is_callable h l); reflexivity.
Qed.

Lemma typeof_is_object h v :
  String.eqb (typeof h v) "object" =
  match v with
  | VNull => true
  | VObject l => negb (is_callable h l)
  | _ => false
  end.
Proof.
  destruct v; simpl; try reflexivity.
  destruct (is_callable h l); reflexivity.
Qed.

Lemma instanceof_Error_object h v :
  instanceof_Error h v = true -> exists l, v = VObject l /\ is_Some (h !! l).
Proof.
  destruct v; simpl; try discriminate.
  destruct (h !! l) eqn:E; [eauto | discriminate].
Qed.

Lemma instanceof_Error_not_text h v :
  instanceof_Error h v = true -> is_text v = false.
Proof. intros [l [-> _]]%instanceof_Error_object. reflexivity. Qed.

Lemma lookup_fresh (h : heap) (o : obj) : (h ++ [o]) !! length h = Some o.
Proof. rewrite lookup_app_r by lia. by rewrite Nat.sub_diag. Qed.

Lemma unused_length (h : heap) : unused h (length h).
Proof. apply lookup_ge_None_2. lia. Qed.

(** An own property of the object just allocated is read at once. *)
Lemma get_fresh_own (h : heap) (o : obj) (k : string) (v : value) :
  o_props o !! k = Some v ->
  get (h ++ [o]) (VObject (length h)) k = Some v.
Proof. intros Hk. simpl. rewrite lookup_fresh, Hk. reflexivity. Qed.

(** An object linked directly to [Error.prototype] is an [Error]. *)
Lemma instanceof_Error_fresh (h : heap) (o : obj) :
  o_proto o = Some Error_prototype ->
  instanceof_Error (h ++ [o]) (VObject (length h)) = true.
Proof.
  intros Hp. simpl. rewrite lookup_fresh, Hp.
  destruct (decide (Error_prototype = Error_prototype)); congruence.
Qed.

(** ** [err] with a text or an error object *)

Lemma new_Error_text st m :
  new_Error (VString m) st =
  (extend st (error_object "Error" m Error_prototype),
   Normal (VObject (length (st_heap st)))).
Proof. reflexivity. Qed.

Lemma error_object_message h name m proto :
  message_of (h ++ [error_object name m proto]) (VObject (length h)) = Some (VString m).
Proof.
  apply get_fresh_own. simpl. apply lookup_insert_eq.
Qed.

Lemma error_object_trace h name m proto :
  has_trace (h ++ [error_object name m proto]) (VObject (length h)).
Proof.
  eexists. apply get_fresh_own. simpl.
  rewrite lookup_insert_ne by discriminate. apply lookup_singleton_eq.
Qed.

(** C7.  For every error object [e] already in the heap (and whatever
    further arguments are passed), [err(e)] returns the failure result
    whose [err] field is [e] itself, the same reference, and leaves the
    whole state as it was: nothing is allocated, so there is no copy, and
    no object, [e] and its trace included, is touched. *)
Theorem err_keeps_error_object (st : state) (e : value) (args : list value) :
  is_error_object (st_heap st) e = true ->
  err e args st = (st, Normal {| r_ok := false; r_val := VUndefined; r_err := e |}).
Proof.
  unfold is_error_object. intros He.
  unfold err, bind, get_heap, ret.
  rewrite typeof_is_string, (instanceof_Error_not_text _ _ He), He.
  reflexivity.
Qed.

(** C8.  For every text [m], [err(m)] returns a failure result whose error
    is a new object, placed at a location that was not in use, linked
    directly to [Error.prototype] (a generic error), whose message reads
    [m] and whose trace is present. *)
Theorem err_of_text (st : state) (m : string) (args : list value) :
  exists st' e l,
    err (VString m) args st =
      (st', Normal {| r_ok := false; r_val := VUndefined; r_err := e |})
    /\ e = VObject l
    /\ unused (st_heap st) l
    /\ (o_proto <$> st_heap st' !! l) = Some (Some Error_prototype)
    /\ is_error_object (st_heap st') e = true
    /\ message_of (st_heap st') e = Some (VString m)
    /\ has_trace (st_heap st') e
    /\ st_calls st' = st_calls st.
Proof.
  exists (extend st (error_object "Error" m Error_prototype)),
         (VObject (length (st_heap st))), (length (st_heap st)).
  repeat split.
  - apply unused_length.
  - simpl. by rewrite lookup_fresh.
  - by apply instanceof_Error_fresh.
  - apply error_object_message.
  - apply error_object_trace.
Qed.

(** ** [err] with anything else *)

(** The misuse error: what line 77 throws. *)
Lemma err_misuse (st : state) (x : value) (args : list value) :
  is_text x = false ->
  instanceof_Error (st_heap st) x = false ->
  (String.eqb (typeof (st_heap st) x) "function"
   && instanceof_Error (st_heap st) (default VUndefined (get (st_heap st) x "prototype")))
    = false ->
  err x args st =
    (extend st (error_object "Error" misuse_message Error_prototype),
     Abrupt (VObject (length (st_heap st)))).
Proof.
  intros Ht Hi Hc. unfold err, bind, get_heap.
  rewrite typeof_is_string, Ht, Hi, Hc. reflexivity.
Qed.

(** The test of line 72-73 accepts only functions with an error
    prototype. *)
Lemma class_test_sound (h : heap) (x : value) :
  (String.eqb (typeof h x) "function"
   && instanceof_Error h (default VUndefined (get h x "prototype"))) = true ->
  has_error_prototype h x = true.
Proof.
  rewrite typeof_is_function. intros [Hf Hp]%andb_true_iff.
  destruct x as [| | | | | | |c]; try discriminate.
  unfold has_error_prototype.
  destruct (get h (VObject c) "prototype") as [[| | | | | | |p]|]; try discriminate.
  change (inherits_from (S (length h)) h p Error_prototype = true) in Hp.
  rewrite Hf, Hp. apply orb_true_r.
Qed.

Lemma err_misuse_of_other (st : state) (x : value) (args : list value) :
  is_text x = false ->
  is_error_object (st_heap st) x = false ->
  has_error_prototype (st_heap st) x = false ->
  err x args st =
    (extend st (error_object "Error" misuse_message Error_prototype),
     Abrupt (VObject (length (st_heap st)))).
Proof.
  intros Ht Hi Hc. apply err_misuse; try assumption.
  destruct (_ && _) eqn:E; [| reflexivity].
  apply class_test_sound in E. congruence.
Qed.

(** C5 as stated does not hold: the arrow function of location 7 is not a
    text, not an error object and not a constructor, and [err] throws a
    TypeError on it ("not a constructor"), not the misuse error. *)
Lemma err_rejects_every_other_argument_fails : ~ err_rejects_every_other_argument.
Proof.
  intros H.
  destruct (H (start realm_with_arrow) (VObject 7) [] eq_refl eq_refl eq_refl)
    as (st' & e & Hrun & Hmsg).
  vm_compute in Hrun. injection Hrun as <- <-.
  vm_compute in Hmsg. discriminate.
Qed.

(** C5, amended.  For every first argument that is not a text, not an
    error object and not a function whose [prototype] is
    [Error.prototype] or inherits from it, and whatever the further
    arguments, [err] returns no result: it throws a new [Error] whose
    message is exactly
    "err expects a string, Error, or Error class as an argument". *)
Theorem err_throws_on_other_arguments (st : state) (x : value) (args : list value) :
  is_text x = false ->
  is_error_object (st_heap st) x = false ->
  has_error_prototype (st_heap st) x = false ->
  exists st' e l,
    err x args st = (st', Abrupt e)
    /\ e = VObject l
    /\ unused (st_heap st) l
    /\ (o_proto <$> st_heap st' !! l) = Some (Some Error_prototype)
    /\ message_of (st_heap st') e = Some (VString misuse_message)
    /\ st_calls st' = st_calls st.
Proof.
  intros Ht Hi Hc.
  exists (extend st (error_object "Error" misuse_message Error_prototype)),
         (VObject (length (st_heap st))), (length (st_heap st)).
  split; [| split; [reflexivity | split; [apply unused_length | split; [| split]]]].
  - by apply err_misuse_of_other.
  - simpl. by rewrite lookup_fresh.
  - apply error_object_message.
  - reflexivity.
Qed.

(** [err(1)] and [err(class Test {})]. *)
Lemma err_throws_on_other_arguments_witness :
  (exists st' e l,
     err (num 1 I) [] (start realm) = (st', Abrupt e)
     /\ e = VObject l
     /\ unused realm l
     /\ (o_proto <$> st_heap st' !! l) = Some (Some Error_prototype)
     /\ message_of (st_heap st') e = Some (VString misuse_message)
     /\ st_calls st' = [])
  /\
  (exists st' e l,
     err (VObject 7) [] (start_with Test_code realm_with_Test) = (st', Abrupt e)
     /\ e = VObject l
     /\ unused realm_with_Test l
     /\ (o_proto <$> st_heap st' !! l) = Some (Some Error_prototype)
     /\ message_of (st_heap st') e = Some (VString misuse_message)
     /\ st_calls st' = []).
Proof.
  split.
  - apply (err_throws_on_other_arguments (start realm) (num 1 I) []); reflexivity.
  - apply (err_throws_on_other_arguments (start_with Test_code realm_with_Test)
             (VObject 7) []); vm_compute; reflexivity.
Defined.

(** ** [err] with a constructor *)

(** The third branch of [err], path by path. *)
Lemma err_class_branch (st : state) (c p : loc) (args : list value) :
  is_callable (st_heap st) c = true ->
  instanceof_Error (st_heap st) (VObject c) = false ->
  get (st_heap st) (VObject c) "prototype" = Some (VObject p) ->
  instanceof_Error (st_heap st) (VObject p) = true ->
  err (VObject c) args st =
    match st_code st c with
    | None =>
        (extend st (error_object "TypeError" "not a constructor" TypeError_prototype),
         Abrupt (VObject (length (st_heap st))))
    | Some code =>
        match code args (st_heap st) with
        | Raises h' v => (with_heap st h', Abrupt v)
        | Yields h' l _ =>
            (with_heap st h',
             Normal {| r_ok := false; r_val := VUndefined; r_err := VObject l |})
        end
    end.
Proof.
  intros Hf Hi Hp Hpe.
  unfold err, bind, get_heap. rewrite typeof_is_string.
  rewrite Hi, typeof_is_function, Hf, Hp.
  change (default VUndefined (Some (VObject p))) with (VObject p).
  rewrite Hpe. cbn beta iota delta [is_text andb].
  unfold construct.
  destruct (st_code st c) as [code|]; [| reflexivity].
  destruct (code args (st_heap st)) as [h' l live|h' v]; reflexivity.
Qed.

(** A subclass of [Error]: the constructor runs and what it yields is
    wrapped. *)
Lemma err_of_error_subclass (st : state) (c p l : loc) (args : list value)
    (code : constructor) (h' : heap) (live : is_Some (h' !! l)) :
  is_callable (st_heap st) c = true ->
  instanceof_Error (st_heap st) (VObject c) = false ->
  get (st_heap st) (VObject c) "prototype" = Some (VObject p) ->
  instanceof_Error (st_heap st) (VObject p) = true ->
  st_code st c = Some code ->
  code args (st_heap st) = Yields h' l live ->
  err (VObject c) args st =
    (with_heap st h',
     Normal {| r_ok := false; r_val := VUndefined; r_err := VObject l |}).
Proof.
  intros Hf Hi Hp Hpe Hc Hy.
  by rewrite (err_class_branch _ _ _ _ Hf Hi Hp Hpe), Hc, Hy.
Qed.

(** [err(TypeError, "boom")] is accepted. *)
Example err_of_TypeError :
  exists st',
    err (VObject TypeError_constructor) [VString "boom"] (start realm)
      = (st', Normal {| r_ok := false; r_val := VUndefined; r_err := VObject 6 |})
    /\ (o_proto <$> st_heap st' !! 6) = Some (Some TypeError_prototype)
    /\ message_of (st_heap st') (VObject 6) = Some (VString "boom").
Proof. eexists. repeat split; vm_compute; reflexivity. Qed.

(** C4, at the generic error type itself.  [Error] is a constructor whose
    instances are error objects, yet [Error.prototype] does not inherit
    from [Error.prototype], so the test of line 73 is false for it:
    [err(Error, "boom")] throws the misuse error and returns no result. *)
Theorem err_of_Error_itself_throws :
  is_error_class (start realm) (VObject Error_constructor) = true
  /\ exists st' e,
       err (VObject Error_constructor) [VString "boom"] (start realm) = (st', Abrupt e)
       /\ message_of (st_heap st') e = Some (VString misuse_message).
Proof. split; [| do 2 eexists; split]; vm_compute; reflexivity. Qed.

(** ** Normalization of a raised value *)

Lemma ToString_rendering (st : state) (v : value) (s : string) :
  rendering (st_heap st) v = Some s -> ToString v st = (st, Normal s).
Proof.
  destruct v as [| |[|]| | | | |l]; simpl; intros H; try (injection H as <-; reflexivity);
    try discriminate.
  unfold bind, get_heap. by rewrite H.
Qed.

Lemma ToString_no_rendering (st : state) (v : value) :
  rendering (st_heap st) v = None ->
  exists msg,
    ToString v st =
      (extend st (error_object "TypeError" msg TypeError_prototype),
       Abrupt (VObject (length (st_heap st)))).
Proof.
  destruct v as [| |[|]| | | | |l]; simpl; intros H; try discriminate.
  - eexists. reflexivity.
  - eexists. unfold bind, get_heap. rewrite H. reflexivity.
Qed.

Lemma normalize_error_object (st : state) (e : value) :
  instanceof_Error (st_heap st) e = true -> normalize e st = (st, Normal e).
Proof. intros H. unfold normalize, bind, get_heap. by rewrite H. Qed.

Lemma normalize_other (st : state) (e : value) (s : string) :
  instanceof_Error (st_heap st) e = false ->
  rendering (st_heap st) e = Some s ->
  normalize e st =
    (extend st (error_object "Error"
                  (unexpected_throw_message s (typeof (st_heap st) e)) Error_prototype),
     Normal (VObject (length (st_heap st)))).
Proof.
  intros Hi Hr. unfold normalize, bind, get_heap. rewrite Hi.
  rewrite (ToString_rendering _ _ _ Hr). reflexivity.
Qed.

Lemma normalize_no_rendering (st : state) (e : value) :
  instanceof_Error (st_heap st) e = false ->
  rendering (st_heap st) e = None ->
  exists msg,
    normalize e st =
      (extend st (error_object "TypeError" msg TypeError_prototype),
       Abrupt (VObject (length (st_heap st)))).
Proof.
  intros Hi Hr. destruct (ToString_no_rendering _ _ Hr) as [msg Hm].
  exists msg. unfold normalize, bind, get_heap. rewrite Hi, Hm. reflexivity.
Qed.

(** Normalization never calls the transformer and leaves the code alone. *)
Lemma normalize_frame (st : state) (e : value) :
  st_calls (fst (normalize e st)) = st_calls st
  /\ st_code (fst (normalize e st)) = st_code st.
Proof.
  destruct (instanceof_Error (st_heap st) e) eqn:Hi.
  - by rewrite normalize_error_object.
  - destruct (rendering (st_heap st) e) as [s|] eqn:Hr.
    + by rewrite (normalize_other _ _ _ Hi Hr).
    + destruct (normalize_no_rendering _ _ Hi Hr) as [msg ->]. by split.
Qed.

(** The code's normalization does what the specification's wording says,
    wherever that wording gives an error. *)
Lemma normalize_normalized_error (st : state) (v e : value) (h2 : heap) :
  normalized_error (st_heap st) v = Some (h2, e) ->
  normalize v st = (with_heap st h2, Normal e).
Proof.
  unfold normalized_error, is_error_object.
  destruct (instanceof_Error (st_heap st) v) eqn:Hi.
  - intros [= <- <-]. rewrite (normalize_error_object _ _ Hi).
    by destruct st.
  - destruct (rendering (st_heap st) v) as [s|] eqn:Hr; [| discriminate].
    intros [= <- <-]. by rewrite (normalize_other _ _ _ Hi Hr).
Qed.

(** [err] on an error object: the second branch. *)
Lemma err_error_object (st : state) (e : value) (args : list value) :
  instanceof_Error (st_heap st) e = true ->
  err e args st = (st, Normal {| r_ok := false; r_val := VUndefined; r_err := e |}).
Proof.
  intros He. unfold err, bind, get_heap, ret.
  rewrite typeof_is_string, (instanceof_Error_not_text _ _ He), He.
  reflexivity.
Qed.

(** ** [tryCatch]: the computation throws *)

Lemma tryCatch_throw (st : state) (expression : computation) (tr : transformer)
    (h1 : heap) (v : value) :
  expression (st_heap st) = (h1, Abrupt v) ->
  tryCatch expression tr st =
    (r <- makeErrorResult tr v;; ret (Plain r)) (with_heap st h1).
Proof.
  intros He. unfold tryCatch, try_catch, bind at 1, call. rewrite He. reflexivity.
Qed.

Lemma makeErrorResult_run (st st2 : state) (tr : transformer) (v error : value)
    (h3 : heap) (c : completion value) :
  normalize v st = (st2, Normal error) ->
  tr error (st_heap st2) = (h3, c) ->
  makeErrorResult tr v st =
    match c with
    | Normal replaced => err replaced [] (called st h3 error)
    | Abrupt x => (called st h3 error, Abrupt x)
    end.
Proof.
  intros Hn Ht. unfold makeErrorResult, bind, call_transformer.
  rewrite Hn, Ht.
  destruct (normalize_frame st v) as [Hc Hk]. rewrite Hn in Hc, Hk. simpl in Hc, Hk.
  unfold called. rewrite Hc, Hk. destruct c; reflexivity.
Qed.

(** When the raised value normalizes and the transformer returns an error
    object, the catch block returns the failure of that object. *)
Lemma tryCatch_sync_throw_is_plain_failure
    (st st2 : state) (expression : computation) (tr : transformer)
    (h1 h3 : heap) (v error replaced : value) :
  expression (st_heap st) = (h1, Abrupt v) ->
  normalize v (with_heap st h1) = (st2, Normal error) ->
  tr error (st_heap st2) = (h3, Normal replaced) ->
  is_error_object h3 replaced = true ->
  tryCatch expression tr st =
    (called st h3 error,
     Normal (Plain {| r_ok := false; r_val := VUndefined; r_err := replaced |})).
Proof.
  intros He Hn Ht Hr.
  rewrite (tryCatch_throw _ _ _ _ _ He). unfold bind at 1.
  rewrite (makeErrorResult_run _ _ _ _ _ _ _ Hn Ht).
  rewrite err_error_object by exact Hr. reflexivity.
Qed.

(** [tryCatch(() => { throw 'x' })] with the default transformer. *)
Example tryCatch_thrown_text :
  exists st',
    tryCatch (fun h => (h, Abrupt (VString "x"))) default_transformer (start realm) =
      (st', Normal (Plain {| r_ok := false; r_val := VUndefined; r_err := VObject 6 |}))
    /\ message_of (st_heap st') (VObject 6)
       = Some (VString "Unexpected throw value 'x' of type string")
    /\ st_calls st' = [VObject 6].
Proof. eexists. repeat split; vm_compute; reflexivity. Qed.

(** C3, at a thrown symbol.  A symbol is not an error object and has no
    text rendering: the template literal of line 118 raises a TypeError
    inside the [catch] block, so [tryCatch] itself throws that TypeError,
    in every state and with every transformer.  No [Error] with the
    "Unexpected throw value" message is made and the transformer is never
    called. *)
Theorem tryCatch_thrown_symbol_escapes (st : state) (tr : transformer) (id : nat) :
  let st' :=
    extend st (error_object "TypeError" "Cannot convert a Symbol value to a string"
                 TypeError_prototype) in
  let e := VObject (length (st_heap st)) in
  tryCatch (fun h => (h, Abrupt (VSymbol id))) tr st = (st', Abrupt e)
  /\ message_of (st_heap st') e
     = Some (VString "Cannot convert a Symbol value to a string")
  /\ (o_proto <$> st_heap st' !! length (st_heap st)) = Some (Some TypeError_prototype)
  /\ st_calls st' = st_calls st.
Proof.
  repeat split.
  - apply error_object_message.
  - simpl. by rewrite lookup_fresh.
Qed.

(** [tryCatch(() => { throw Symbol() })] in the plain realm. *)
Example tryCatch_thrown_symbol :
  snd (tryCatch (fun h => (h, Abrupt (VSymbol 0))) default_transformer (start realm))
  = Abrupt (VObject 6).
Proof. reflexivity. Qed.

(** C6, at a thrown symbol.  The computation throws synchronously and the
    transformer returns a replacement error object whatever it is given,
    yet [tryCatch] returns no result at all, plain or deferred: it throws
    the TypeError of the string conversion of line 118, and the
    transformer is not called. *)
Theorem tryCatch_thrown_symbol_defeats_replacement
    (st : state) (tr : transformer) (id : nat) :
  (forall e h, exists h' replaced,
      tr e h = (h', Normal replaced) /\ is_error_object h' replaced = true) ->
  (forall st' d,
      tryCatch (fun h => (h, Abrupt (VSymbol id))) tr st <> (st', Normal d))
  /\ snd (tryCatch (fun h => (h, Abrupt (VSymbol id))) tr st)
     = Abrupt (VObject (length (st_heap st)))
  /\ st_calls (fst (tryCatch (fun h => (h, Abrupt (VSymbol id))) tr st)) = st_calls st.
Proof.
  intros _. repeat split. intros st' d. discriminate.
Qed.

Lemma tryCatch_thrown_symbol_defeats_replacement_witness :
  snd (tryCatch (fun h => (h, Abrupt (VSymbol 0))) always_replaces (start realm))
  = Abrupt (VObject 6).
Proof.
  apply (tryCatch_thrown_symbol_defeats_replacement (start realm) always_replaces 0).
  intros e h. exists (h ++ [error_object "Error" "replacement" Error_prototype]),
                     (VObject (length h)).
  split; [reflexivity | by apply instanceof_Error_fresh].
Defined.

(** ** The variant invariant *)

(** What every run of [err] guarantees: the transformer is not called, the
    code is left alone, and a returned result is a failure that satisfies
    the invariant. *)
Lemma err_post (st : state) (x : value) (args : list value) :
  st_calls (fst (err x args st)) = st_calls st
  /\ st_code (fst (err x args st)) = st_code st
  /\ forall st' r,
       err x args st = (st', Normal r) ->
       r_ok r = false /\ variant_invariant (st_heap st') r.
Proof.
  unfold err, bind, get_heap. rewrite typeof_is_string.
  destruct (is_text x) eqn:Ht.
  { destruct x; try discriminate. rewrite new_Error_text.
    split; [reflexivity |]. split; [reflexivity |].
    intros st' r [= <- <-]. split; [reflexivity |]. split; [reflexivity |].
    eexists. split; [reflexivity |]. simpl. rewrite lookup_fresh. eauto. }
  destruct (instanceof_Error (st_heap st) x) eqn:Hi.
  { split; [reflexivity |]. split; [reflexivity |].
    intros st' r [= <- <-]. split; [reflexivity |]. split; [reflexivity |].
    destruct (instanceof_Error_object _ _ Hi) as [l [-> Hl]]. eauto. }
  destruct (_ && _) eqn:Hc.
  2:{ split; [reflexivity |]. split; [reflexivity |].
      intros st' r. rewrite new_Error_text. discriminate. }
  unfold construct.
  destruct x as [| | | | | | |c];
    try (split; [reflexivity | split; [reflexivity | discriminate]]).
  destruct (st_code st c) as [code|];
    [| split; [reflexivity | split; [reflexivity | discriminate]]].
  destruct (code args (st_heap st)) as [h' l live|h' v];
    [| split; [reflexivity | split; [reflexivity | discriminate]]].
  split; [reflexivity |]. split; [reflexivity |].
  intros st' r [= <- <-]. split; [reflexivity |]. split; [reflexivity |].
  eexists. split; [reflexivity | exact live].
Qed.

Lemma err_calls (st : state) (x : value) (args : list value) :
  st_calls (fst (err x args st)) = st_calls st.
Proof. apply err_post. Qed.

Lemma err_invariant (st st' : state) (x : value) (args : list value) (r : result) :
  err x args st = (st', Normal r) -> variant_invariant (st_heap st') r.
Proof. intros H. destruct (err_post st x args) as (_ & _ & Hr). by apply (Hr _ _ H). Qed.

Lemma err_tag (st st' : state) (x : value) (args : list value) (r : result) :
  err x args st = (st', Normal r) -> r_ok r = false.
Proof. intros H. destruct (err_post st x args) as (_ & _ & Hr). by apply (Hr _ _ H). Qed.

(** The same for [makeErrorResult], whose result is a result of [err]. *)
Lemma makeErrorResult_invariant (st st' : state) (tr : transformer) (v : value)
    (r : result) :
  makeErrorResult tr v st = (st', Normal r) ->
  r_ok r = false /\ variant_invariant (st_heap st') r.
Proof.
  unfold makeErrorResult, bind.
  destruct (normalize v st) as [st1 [error|x]]; [| discriminate].
  destruct (call_transformer tr error st1) as [st2 [replaced|x]]; [| discriminate].
  intros H. split; [by apply err_tag in H | by apply err_invariant in H].
Qed.

(** ** [tryCatch]: the computation returns *)

(** The test of line 123 selects exactly the objects that are not
    functions and have a [then] property. *)
Lemma deferred_test (h : heap) (res : value) :
  (String.eqb (typeof h res) "object"
   && bool_decide (res <> VNull)
   && has_property h res "then") = object_with_then h res.
Proof.
  rewrite typeof_is_object. destruct res; try reflexivity.
  unfold object_with_then, has_property.
  rewrite (bool_decide_eq_true_2 (VObject l <> VNull)) by discriminate.
  by rewrite andb_true_r.
Qed.

Lemma tryCatch_return (st : state) (expression : computation) (tr : transformer)
    (h1 : heap) (res : value) :
  expression (st_heap st) = (h1, Normal res) ->
  tryCatch expression tr st =
    if object_with_then h1 res then
      match deferral h1 res with
      | Chains source => (with_heap st h1, Normal (Deferred source))
      | NotAFunction =>
          (r <- makeErrorResult tr (VObject (length h1));; ret (Plain r))
            (after_failed_then st h1)
      | HandsOver => (with_heap st h1, Normal HandedOver)
      end
    else (with_heap st h1, Normal (Plain (ok res))).
Proof.
  intros He. unfold tryCatch, try_catch, bind at 1 2, call, get_heap. rewrite He.
  cbn [st_heap with_heap]. rewrite deferred_test.
  destruct (object_with_then h1 res); [| reflexivity].
  destruct (deferral h1 res); reflexivity.
Qed.

Lemma await_rejected (st : state) (tr : transformer) (v : value) :
  await tr (Deferred (Rejects v)) st =
    match makeErrorResult tr v st with
    | (st', Normal r) => (st', Fulfils r)
    | (st', Abrupt x) => (st', Rejects x)
    end.
Proof. reflexivity. Qed.

(** C2.  When the transformer throws [x] on the normalized error:
    - after a synchronous throw of the computation, [tryCatch] itself
      throws [x];
    - after a rejection of the deferred value the computation returned,
      [tryCatch] has returned a deferred result, and that deferred result
      rejects with [x].
    Neither outcome is a failure result. *)
Theorem transformer_throw_is_not_caught :
  (forall (st st2 : state) (expression : computation) (tr : transformer)
          (h1 h3 : heap) (v error x : value),
      expression (st_heap st) = (h1, Abrupt v) ->
      normalize v (with_heap st h1) = (st2, Normal error) ->
      tr error (st_heap st2) = (h3, Abrupt x) ->
      tryCatch expression tr st = (called st h3 error, Abrupt x))
  /\
  (forall (st st' st2 : state) (expression : computation) (tr : transformer)
          (h1 h3 : heap) (res v error x : value),
      expression (st_heap st) = (h1, Normal res) ->
      object_with_then h1 res = true ->
      deferral h1 res = Chains (Rejects v) ->
      normalize v st' = (st2, Normal error) ->
      tr error (st_heap st2) = (h3, Abrupt x) ->
      tryCatch expression tr st = (with_heap st h1, Normal (Deferred (Rejects v)))
      /\ await tr (Deferred (Rejects v)) st' = (called st' h3 error, Rejects x)).
Proof.
  split.
  - intros st st2 expression tr h1 h3 v error x He Hn Ht.
    rewrite (tryCatch_throw _ _ _ _ _ He). unfold bind at 1.
    by rewrite (makeErrorResult_run _ _ _ _ _ _ _ Hn Ht).
  - intros st st' st2 expression tr h1 h3 res v error x He Hg Hp Hn Ht. split.
    + rewrite (tryCatch_return _ _ _ _ _ He), Hg, Hp. reflexivity.
    + rewrite await_rejected.
      by rewrite (makeErrorResult_run _ _ _ _ _ _ _ Hn Ht).
Qed.

Lemma transformer_throw_is_not_caught_witness :
  (exists st',
     tryCatch throws_other rethrow_unexpected (start realm) = (st', Abrupt (VObject 6))
     /\ message_of (st_heap st') (VObject 6) = Some (VString "other"))
  /\ tryCatch (fun h => (h, Normal (VObject 11))) rethrow_unexpected
       (start realm_with_promises)
     = (start realm_with_promises, Normal (Deferred (Rejects (VObject 10))))
  /\ await rethrow_unexpected (Deferred (Rejects (VObject 10))) (start realm_with_promises)
     = (called (start realm_with_promises) realm_with_promises (VObject 10),
        Rejects (VObject 10)).
Proof.
  split.
  - eexists. split.
    + apply (proj1 transformer_throw_is_not_caught (start realm)
               (with_heap (start realm) (realm ++ [error_object "Error" "other" Error_prototype]))
               throws_other rethrow_unexpected
               (realm ++ [error_object "Error" "other" Error_prototype])
               (realm ++ [error_object "Error" "other" Error_prototype])
               (VObject 6) (VObject 6) (VObject 6)); vm_compute; reflexivity.
    + vm_compute. reflexivity.
  - apply (proj2 transformer_throw_is_not_caught
             (start realm_with_promises) (start realm_with_promises)
             (start realm_with_promises)
             (fun h => (h, Normal (VObject 11))) rethrow_unexpected
             realm_with_promises realm_with_promises
             (VObject 11) (VObject 10) (VObject 10) (VObject 10)); vm_compute; reflexivity.
Defined.

(** ** When the transformer is called *)

(** After a raised value that normalizes, the transformer has been called
    once, on the normalized error. *)
Lemma makeErrorResult_calls (st : state) (tr : transformer) (v e : value) (h2 : heap) :
  normalized_error (st_heap st) v = Some (h2, e) ->
  st_calls (fst (makeErrorResult tr v st)) = st_calls st ++ [e].
Proof.
  intros Hn. apply normalize_normalized_error in Hn.
  destruct (tr e (st_heap (with_heap st h2))) as [h3 c] eqn:Ht.
  rewrite (makeErrorResult_run _ _ _ _ _ _ _ Hn Ht).
  destruct c; [apply err_calls | reflexivity].
Qed.

(** C10 as stated does not hold: the promise of location 17, whose [then]
    was replaced by a number, is returned normally by the computation, and
    the transformer is called (on the TypeError that the call of [then]
    raises). *)
Lemma transformer_idle_when_computation_returns_fails :
  ~ transformer_idle_when_computation_returns.
Proof.
  intros H.
  specialize (H (start realm_with_promises) (fun h => (h, Normal (VObject 17)))
                default_transformer realm_with_promises (VObject 17) eq_refl
                (or_intror (ex_intro _ (VString "x") eq_refl))).
  vm_compute in H. discriminate.
Qed.

(** C10, amended.  The transformer is not called
    - when the computation returns a value that line 123 does not take
      for deferred;
    - when it returns a deferred value that the promise chain attaches to,
      neither at the call nor later, when that value resolves or while it
      stays pending.
    It is called once, on the normalized error,
    - when the computation throws an error object, or a value that has a
      text;
    - when the deferred value rejects with one. *)
Theorem transformer_called_only_on_failure :
  (forall (st : state) (expression : computation) (tr : transformer)
          (h1 : heap) (res : value),
      expression (st_heap st) = (h1, Normal res) ->
      object_with_then h1 res = false ->
      st_calls (fst (tryCatch expression tr st)) = st_calls st)
  /\
  (forall (st : state) (expression : computation) (tr : transformer)
          (h1 : heap) (res : value) (source : settlement value),
      expression (st_heap st) = (h1, Normal res) ->
      object_with_then h1 res = true ->
      deferral h1 res = Chains source ->
      st_calls (fst (tryCatch expression tr st)) = st_calls st)
  /\
  (forall (st : state) (tr : transformer) (p : value),
      await tr (Deferred (Fulfils p)) st = (st, Fulfils (ok p)))
  /\
  (forall (st : state) (tr : transformer),
      await tr (Deferred Pends) st = (st, Pends))
  /\
  (forall (st : state) (expression : computation) (tr : transformer)
          (h1 h2 : heap) (v e : value),
      expression (st_heap st) = (h1, Abrupt v) ->
      normalized_error h1 v = Some (h2, e) ->
      st_calls (fst (tryCatch expression tr st)) = st_calls st ++ [e])
  /\
  (forall (st : state) (tr : transformer) (h2 : heap) (v e : value),
      normalized_error (st_heap st) v = Some (h2, e) ->
      st_calls (fst (await tr (Deferred (Rejects v)) st)) = st_calls st ++ [e]).
Proof.
  split; [| split; [| split; [| split; [| split]]]].
  - intros st expression tr h1 res He Hg.
    by rewrite (tryCatch_return _ _ _ _ _ He), Hg.
  - intros st expression tr h1 res source He Hg Hd.
    by rewrite (tryCatch_return _ _ _ _ _ He), Hg, Hd.
  - reflexivity.
  - reflexivity.
  - intros st expression tr h1 h2 v e He Hn.
    rewrite (tryCatch_throw _ _ _ _ _ He). unfold bind at 1.
    pose proof (makeErrorResult_calls (with_heap st h1) tr v e h2 Hn) as Hc.
    destruct (makeErrorResult tr v (with_heap st h1)) as [st' [r|x]]; exact Hc.
  - intros st tr h2 v e Hn. rewrite await_rejected.
    pose proof (makeErrorResult_calls st tr v e h2 Hn) as Hc.
    destruct (makeErrorResult tr v st) as [st' [r|x]]; exact Hc.
Qed.

(** A returned text, a returned promise, a thrown [Error] and a rejection
    with a text. *)
Lemma transformer_called_only_on_failure_witness :
  st_calls (fst (tryCatch (fun h => (h, Normal (VString "x"))) rethrow_unexpected
                   (start realm))) = []
  /\ st_calls (fst (tryCatch (fun h => (h, Normal (VObject 12))) rethrow_unexpected
                      (start realm_with_promises))) = []
  /\ st_calls (fst (tryCatch throws_other rethrow_unexpected (start realm))) = [VObject 6]
  /\ st_calls (fst (await rethrow_unexpected (Deferred (Rejects (VString "x")))
                      (start realm_with_promises))) = [VObject 19].
Proof.
  destruct transformer_called_only_on_failure as (Hplain & Hdeferred & _ & _ & Hthrow & Hreject).
  split; [| split; [| split]].
  - apply (Hplain (start realm) (fun h => (h, Normal (VString "x"))) rethrow_unexpected
             realm (VString "x")); reflexivity.
  - apply (Hdeferred (start realm_with_promises) (fun h => (h, Normal (VObject 12)))
             rethrow_unexpected realm_with_promises (VObject 12) (Fulfils (VString "x")));
      vm_compute; reflexivity.
  - apply (Hthrow (start realm) throws_other rethrow_unexpected
             (realm ++ [error_object "Error" "other" Error_prototype])
             (realm ++ [error_object "Error" "other" Error_prototype])
             (VObject 6) (VObject 6)); vm_compute; reflexivity.
  - apply (Hreject (start realm_with_promises) rethrow_unexpected
             (realm_with_promises
                ++ [error_object "Error" (unexpected_throw_message "x" "string")
                      Error_prototype])
             (VString "x") (VObject 19)); vm_compute; reflexivity.
Defined.

(** C9.  [ok(v)] is the result with tag true, payload [v] and no error,
    for every [v], [undefined] included; and every result [ok] builds,
    [err] returns, [tryCatch] returns as a plain result, or the deferred
    result of [tryCatch] resolves to, satisfies the variant invariant. *)
Theorem results_satisfy_variant_invariant :
  (forall v : value,
      ok v = {| r_ok := true; r_val := v; r_err := VUndefined |})
  /\ (forall (h : heap) (v : value), variant_invariant h (ok v))
  /\ (forall (st st' : state) (x : value) (args : list value) (r : result),
         err x args st = (st', Normal r) -> variant_invariant (st_heap st') r)
  /\ (forall (st st' : state) (expression : computation) (tr : transformer) (r : result),
         tryCatch expression tr st = (st', Normal (Plain r)) ->
         variant_invariant (st_heap st') r)
  /\ (forall (st st' : state) (tr : transformer) (source : settlement value) (r : result),
         await tr (Deferred source) st = (st', Fulfils r) ->
         variant_invariant (st_heap st') r).
Proof.
  split; [reflexivity |]. split; [reflexivity |]. split; [| split].
  - intros st st' x args r. apply err_invariant.
  - intros st st' expression tr r.
    destruct (expression (st_heap st)) as [h1 [res|v]] eqn:He.
    + rewrite (tryCatch_return _ _ _ _ _ He).
      destruct (object_with_then h1 res).
      * destruct (deferral h1 res); try discriminate.
        unfold bind at 1.
        destruct (makeErrorResult tr (VObject (length h1)) (after_failed_then st h1))
          as [st1 [r1|x]] eqn:Hm; [| discriminate].
        intros [= <- <-]. by apply makeErrorResult_invariant in Hm as [_ Hm].
      * intros [= <- <-]. reflexivity.
    + rewrite (tryCatch_throw _ _ _ _ _ He). unfold bind at 1.
      destruct (makeErrorResult tr v (with_heap st h1)) as [st1 [r1|x]] eqn:Hm;
        [| discriminate].
      intros [= <- <-]. by apply makeErrorResult_invariant in Hm as [_ Hm].
  - intros st st' tr [p|v|] r.
    + intros [= <- <-]. reflexivity.
    + rewrite await_rejected.
      destruct (makeErrorResult tr v st) as [st1 [r1|x]] eqn:Hm; [| discriminate].
      intros [= <- <-]. by apply makeErrorResult_invariant in Hm as [_ Hm].
    + discriminate.
Qed.

Lemma results_satisfy_variant_invariant_witness :
  variant_invariant (realm ++ [error_object "Error" "m" Error_prototype])
    {| r_ok := false; r_val := VUndefined; r_err := VObject 6 |}
  /\ variant_invariant realm (ok (VString "x"))
  /\ variant_invariant
       (realm_with_promises
          ++ [error_object "Error" (unexpected_throw_message "x" "string") Error_prototype])
       {| r_ok := false; r_val := VUndefined; r_err := VObject 19 |}.
Proof.
  destruct results_satisfy_variant_invariant as (_ & _ & Herr & Htry & Hawait).
  split; [| split].
  - apply (Herr (start realm)
             (extend (start realm) (error_object "Error" "m" Error_prototype))
             (VString "m") []).
    reflexivity.
  - apply (Htry (start realm) (start realm)
             (fun h => (h, Normal (VString "x"))) default_transformer).
    reflexivity.
  - apply (Hawait (start realm_with_promises)
             (called (start realm_with_promises)
                (realm_with_promises
                   ++ [error_object "Error" (unexpected_throw_message "x" "string")
                         Error_prototype])
                (VObject 19))
             default_transformer (Rejects (VString "x"))).
    reflexivity.
Defined.

Lemma err_keeps_error_object_witness :
  err (VObject 10) [] (start realm_with_promises) =
    (start realm_with_promises,
     Normal {| r_ok := false; r_val := VUndefined; r_err := VObject 10 |}).
Proof.
  apply (err_keeps_error_object (start realm_with_promises) (VObject 10) []).
  reflexivity.
Defined.

(** ** Which returned values are deferred *)

(** Inheritance found in a heap is found in every extension of it. *)
Lemma inherits_from_mono (n m : nat) (h os : heap) (l t : loc) :
  n <= m -> inherits_from n h l t = true -> inherits_from m (h ++ os) l t = true.
Proof.
  revert m l. induction n as [|n IH]; intros m l Hle; [discriminate |].
  destruct m as [|m]; [lia |]. cbn [inherits_from].
  destruct (h !! l) as [ob|] eqn:Hl; [| discriminate].
  rewrite (lookup_app_l_Some _ _ _ _ Hl).
  destruct (o_proto ob) as [p|]; [| discriminate].
  destruct (decide (p = t)); [reflexivity |]. apply IH. lia.
Qed.

(** An instance linked to a prototype that is an error object is itself an
    error object. *)
Lemma instanceof_Error_instance (h : heap) (o : obj) (p : loc) :
  o_proto o = Some p ->
  instanceof_Error h (VObject p) = true ->
  instanceof_Error (h ++ [o]) (VObject (length h)) = true.
Proof.
  intros Hp He. unfold instanceof_Error. cbn [inherits_from].
  rewrite lookup_fresh, Hp.
  destruct (decide (p = Error_prototype)); [reflexivity |].
  apply (inherits_from_mono (S (length h))); [| exact He].
  rewrite length_app. simpl. lia.
Qed.

(** The common cases of the promise chain. *)
Lemma deferral_cases (h : heap) (res : value) :
  (is_promise h res = true ->
   get h res "constructor" = Some (VObject Promise_constructor) ->
   get h res "then" = Some (VObject Promise_then) ->
   promise_prototype_intact h = true ->
   deferral h res = Chains (settles h res))
  /\ (is_promise h res = true ->
      get h res "constructor" = Some (VObject Promise_constructor) ->
      (forall f, get h res "then" <> Some (VObject f)) ->
      deferral h res = NotAFunction)
  /\ (is_promise h res = false ->
      promise_prototype_intact h = true ->
      (forall f, get h res "then" <> Some (VObject f)) ->
      deferral h res = Chains (Fulfils res))
  /\ (forall f,
         is_promise h res = false ->
         promise_prototype_intact h = true ->
         get h res "then" = Some (VObject f) ->
         f ∉ host_functions ->
         is_callable h f = true ->
         deferral h res = Chains (settles h res)).
Proof.
  unfold deferral, method_of. split; [| split; [| split]].
  - intros -> -> -> ->. rewrite bool_decide_eq_true_2 by reflexivity. reflexivity.
  - intros -> -> Hf. rewrite bool_decide_eq_true_2 by reflexivity.
    cbn [andb].
    destruct (get h res "then") as [[| | | | | | |f]|]; try reflexivity.
    by destruct (Hf f).
  - intros -> -> Hf. cbn [andb].
    destruct (get h res "then") as [[| | | | | | |f]|]; try reflexivity.
    by destruct (Hf f).
  - intros f -> -> -> Hf ->. cbn [andb].
    destruct (decide (f = Promise_then)) as [->|_].
    { exfalso. apply Hf. unfold host_functions. set_solver. }
    by rewrite bool_decide_eq_false_2.
Qed.

(** The call of [then] fails: the catch block runs on a new TypeError. *)
Lemma tryCatch_failed_then (st : state) (expression : computation) (tr : transformer)
    (h1 h3 : heap) (res replaced : value) :
  expression (st_heap st) = (h1, Normal res) ->
  object_with_then h1 res = true ->
  deferral h1 res = NotAFunction ->
  is_error_object h1 (VObject TypeError_prototype) = true ->
  tr (VObject (length h1)) (st_heap (after_failed_then st h1)) = (h3, Normal replaced) ->
  is_error_object h3 replaced = true ->
  tryCatch expression tr st =
    (called (after_failed_then st h1) h3 (VObject (length h1)),
     Normal (Plain {| r_ok := false; r_val := VUndefined; r_err := replaced |})).
Proof.
  unfold is_error_object. intros He Hg Hd Hproto Ht Hr.
  rewrite (tryCatch_return _ _ _ _ _ He), Hg, Hd. unfold bind at 1.
  assert (instanceof_Error (st_heap (after_failed_then st h1)) (VObject (length h1)) = true)
    as Hfresh by (by apply (instanceof_Error_instance _ _ TypeError_prototype)).
  rewrite (makeErrorResult_run _ (after_failed_then st h1) _ _ (VObject (length h1))
             h3 (Normal replaced)) by (by try apply normalize_error_object).
  by rewrite err_error_object.
Qed.

(** A function that carries a [then] method is returned at once, wrapped by
    [ok]. *)
Example tryCatch_function_with_then :
  exposes_then_method realm_with_promises (VObject 15) = true
  /\ tryCatch (fun h => (h, Normal (VObject 15))) default_transformer
       (start realm_with_promises)
     = (start realm_with_promises, Normal (Plain (ok (VObject 15)))).
Proof. split; vm_compute; reflexivity. Qed.

(** [{ then: 1 }] exposes no method and yet gives a deferred result, which
    resolves to [ok] of the object itself. *)
Example tryCatch_object_with_then_data :
  exposes_then_method realm_with_promises (VObject 16) = false
  /\ tryCatch (fun h => (h, Normal (VObject 16))) default_transformer
       (start realm_with_promises)
     = (start realm_with_promises, Normal (Deferred (Fulfils (VObject 16))))
  /\ await default_transformer (Deferred (Fulfils (VObject 16)))
       (start realm_with_promises)
     = (start realm_with_promises, Fulfils (ok (VObject 16))).
Proof. repeat split; vm_compute; reflexivity. Qed.

(** C1 as stated does not hold: the function of location 15 exposes a
    then-like method and is not deferred. *)
Lemma defers_exactly_then_methods_fails : ~ defers_exactly_then_methods.
Proof.
  intros H.
  destruct (H (start realm_with_promises) (fun h => (h, Normal (VObject 15)))
              default_transformer realm_with_promises (VObject 15) eq_refl)
    as [Hdeferred _].
  destruct Hdeferred as [source Hs]; [vm_compute; reflexivity |].
  vm_compute in Hs. discriminate.
Qed.

(** C1, amended.  For every computation that returns a value [res]:
    - if [res] is not an object with a [then] property, or is a function
      (with or without a [then] method), it is wrapped by [ok] and
      returned at once;
    - if [res] is an object that is not a function, has a [then] property
      (own or inherited, callable or not), and the promise chain attaches
      to it, [tryCatch] returns a deferred result; whenever the promise
      the chain waits on fulfils with a payload [p] the deferred result
      resolves to [ok(p)], and whenever it rejects with an error object or
      a value that has a text, normalized to [error], on which the
      transformer returns an error object [replaced], the deferred result
      resolves to the failure result of [replaced];
    - if [res] is a promise of the host, with the host's constructor,
      whose [then] cannot be called, the call of [then] raises a TypeError
      at once and [tryCatch] returns a plain result: the failure result of
      what the transformer makes of that TypeError.
    With [Promise.prototype] as the host made it, the chain attaches to a
    promise of the host that has the host's constructor and [then], which
    it waits on; to an object of the program whose [then] is a method of
    the program, which it adopts; and to an object of the program whose
    [then] is no function, which is the payload itself. *)
Theorem tryCatch_defers_objects_with_then
    (st : state) (expression : computation) (tr : transformer)
    (h1 : heap) (res : value) :
  expression (st_heap st) = (h1, Normal res) ->
  (object_with_then h1 res = false ->
   tryCatch expression tr st = (with_heap st h1, Normal (Plain (ok res))))
  /\
  (object_with_then h1 res = true ->
   forall source,
     deferral h1 res = Chains source ->
     tryCatch expression tr st = (with_heap st h1, Normal (Deferred source))
     /\ (forall (st' : state) (p : value),
            source = Fulfils p ->
            await tr (Deferred source) st' = (st', Fulfils (ok p)))
     /\ (forall (st' : state) (h2 h3 : heap) (reason error replaced : value),
            source = Rejects reason ->
            normalized_error (st_heap st') reason = Some (h2, error) ->
            tr error h2 = (h3, Normal replaced) ->
            is_error_object h3 replaced = true ->
            await tr (Deferred source) st' =
              (called st' h3 error,
               Fulfils {| r_ok := false; r_val := VUndefined; r_err := replaced |})))
  /\
  (object_with_then h1 res = true ->
   deferral h1 res = NotAFunction ->
   forall (h3 : heap) (replaced : value),
     is_error_object h1 (VObject TypeError_prototype) = true ->
     tr (VObject (length h1)) (st_heap (after_failed_then st h1)) = (h3, Normal replaced) ->
     is_error_object h3 replaced = true ->
     tryCatch expression tr st =
       (called (after_failed_then st h1) h3 (VObject (length h1)),
        Normal (Plain {| r_ok := false; r_val := VUndefined; r_err := replaced |})))
  /\
  ((is_promise h1 res = true ->
    get h1 res "constructor" = Some (VObject Promise_constructor) ->
    get h1 res "then" = Some (VObject Promise_then) ->
    promise_prototype_intact h1 = true ->
    deferral h1 res = Chains (settles h1 res))
   /\ (is_promise h1 res = true ->
       get h1 res "constructor" = Some (VObject Promise_constructor) ->
       (forall f, get h1 res "then" <> Some (VObject f)) ->
       deferral h1 res = NotAFunction)
   /\ (is_promise h1 res = false ->
       promise_prototype_intact h1 = true ->
       (forall f, get h1 res "then" <> Some (VObject f)) ->
       deferral h1 res = Chains (Fulfils res))
   /\ (forall f,
          is_promise h1 res = false ->
          promise_prototype_intact h1 = true ->
          get h1 res "then" = Some (VObject f) ->
          f ∉ host_functions ->
          is_callable h1 f = true ->
          deferral h1 res = Chains (settles h1 res))).
Proof.
  intros He. split; [| split; [| split]].
  - intros Hg. by rewrite (tryCatch_return _ _ _ _ _ He), Hg.
  - intros Hg source Hd. split; [| split].
    + by rewrite (tryCatch_return _ _ _ _ _ He), Hg, Hd.
    + intros st' p ->. reflexivity.
    + intros st' h2 h3 reason error replaced -> Hn Ht Hr.
      apply normalize_normalized_error in Hn.
      rewrite await_rejected, (makeErrorResult_run _ _ _ _ _ _ _ Hn Ht).
      by rewrite err_error_object.
  - intros Hg Hd h3 replaced Hproto Ht Hr.
    by apply (tryCatch_failed_then _ _ _ _ _ res).
  - apply deferral_cases.
Qed.

(** [tryCatch(async () => 'x')], [tryCatch(() => Promise.reject('x'))],
    [tryCatch(() => 'x')], and a promise whose [then] was replaced by a
    number. *)
Lemma tryCatch_defers_objects_with_then_witness :
  (tryCatch (fun h => (h, Normal (VObject 12))) default_transformer
     (start realm_with_promises)
   = (start realm_with_promises, Normal (Deferred (Fulfils (VString "x"))))
   /\ await default_transformer (Deferred (Fulfils (VString "x")))
        (start realm_with_promises)
      = (start realm_with_promises, Fulfils (ok (VString "x"))))
  /\ (exists st',
        await default_transformer (Deferred (Rejects (VString "x")))
          (start realm_with_promises)
        = (st', Fulfils {| r_ok := false; r_val := VUndefined; r_err := VObject 19 |})
        /\ message_of (st_heap st') (VObject 19)
           = Some (VString "Unexpected throw value 'x' of type string"))
  /\ tryCatch (fun h => (h, Normal (VString "x"))) default_transformer (start realm)
     = (start realm, Normal (Plain (ok (VString "x"))))
  /\ snd (tryCatch (fun h => (h, Normal (VObject 17))) default_transformer
            (start realm_with_promises))
     = Normal (Plain {| r_ok := false; r_val := VUndefined; r_err := VObject 19 |}).
Proof.
  split; [| split; [| split]].
  - destruct (tryCatch_defers_objects_with_then (start realm_with_promises)
                (fun h => (h, Normal (VObject 12))) default_transformer
                realm_with_promises (VObject 12) eq_refl) as (_ & Hdeferred & _).
    destruct (Hdeferred eq_refl (Fulfils (VString "x")) eq_refl)
      as (Hreturn & Hfulfil & _).
    split; [exact Hreturn |].
    by apply (Hfulfil (start realm_with_promises) (VString "x")).
  - destruct (tryCatch_defers_objects_with_then (start realm_with_promises)
                (fun h => (h, Normal (VObject 13))) default_transformer
                realm_with_promises (VObject 13) eq_refl) as (_ & Hdeferred & _).
    destruct (Hdeferred eq_refl (Rejects (VString "x")) eq_refl) as (_ & _ & Hreject).
    eexists. split.
    + apply (Hreject (start realm_with_promises)
               (realm_with_promises
                  ++ [error_object "Error" (unexpected_throw_message "x" "string")
                        Error_prototype])
               (realm_with_promises
                  ++ [error_object "Error" (unexpected_throw_message "x" "string")
                        Error_prototype])
               (VString "x") (VObject 19) (VObject 19)); vm_compute; reflexivity.
    + vm_compute. reflexivity.
  - apply (proj1 (tryCatch_defers_objects_with_then (start realm)
                    (fun h => (h, Normal (VString "x"))) default_transformer
                    realm (VString "x") eq_refl)).
    reflexivity.
  - destruct (tryCatch_defers_objects_with_then (start realm_with_promises)
                (fun h => (h, Normal (VObject 17))) default_transformer
                realm_with_promises (VObject 17) eq_refl) as (_ & _ & Hfailed & _).
    rewrite (Hfailed eq_refl eq_refl
               (realm_with_promises
                  ++ [error_object "TypeError" "Promise.resolve(...).then is not a function"
                        TypeError_prototype])
               (VObject 19) eq_refl eq_refl eq_refl).
    reflexivity.
Defined.

(** ** The remaining paths of [err] *)

(** X1.  For a function [C] that is not itself an error object and whose
    [prototype] is an error object, [err(C, ...args)] runs the constructor
    and returns the failure result of exactly the object [new] yields,
    the instance or an object the constructor returned in its place,
    whether or not that object is an error; the heap is the one the
    constructor leaves and the transformer is not called. *)
Theorem err_wraps_what_constructor_yields
    (st : state) (c p l : loc) (args : list value)
    (code : constructor) (h' : heap) (live : is_Some (h' !! l)) :
  is_callable (st_heap st) c = true ->
  is_error_object (st_heap st) (VObject c) = false ->
  get (st_heap st) (VObject c) "prototype" = Some (VObject p) ->
  is_error_object (st_heap st) (VObject p) = true ->
  st_code st c = Some code ->
  code args (st_heap st) = Yields h' l live ->
  err (VObject c) args st =
    (with_heap st h',
     Normal {| r_ok := false; r_val := VUndefined; r_err := VObject l |}).
Proof. apply err_of_error_subclass. Qed.

(** A constructor that returns a plain object in place of the instance:
    the failure carries that object, which is not an error. *)
Lemma err_wraps_what_constructor_yields_witness :
  err (VObject 7) [] (start_with classes_code realm_with_classes) =
    (with_heap (start_with classes_code realm_with_classes)
       (realm_with_classes ++ [plain_object Object_prototype ∅]),
     Normal {| r_ok := false; r_val := VUndefined; r_err := VObject 9 |})
  /\ is_error_object (realm_with_classes ++ [plain_object Object_prototype ∅])
       (VObject 9) = false.
Proof.
  split; [| reflexivity].
  apply (err_wraps_what_constructor_yields
           (start_with classes_code realm_with_classes) 7 6 9 []
           overriding_constructor
           (realm_with_classes ++ [plain_object Object_prototype ∅])
           (fresh_is_live realm_with_classes (plain_object Object_prototype ∅)));
    reflexivity.
Defined.

(** X2.  When the constructor of such a function throws [v], [err] throws
    [v] itself, in the heap the constructor leaves: no result is returned
    and the misuse error is not raised. *)
Theorem err_constructor_throw_propagates
    (st : state) (c p : loc) (args : list value)
    (code : constructor) (h' : heap) (v : value) :
  is_callable (st_heap st) c = true ->
  is_error_object (st_heap st) (VObject c) = false ->
  get (st_heap st) (VObject c) "prototype" = Some (VObject p) ->
  is_error_object (st_heap st) (VObject p) = true ->
  st_code st c = Some code ->
  code args (st_heap st) = Raises h' v ->
  err (VObject c) args st = (with_heap st h', Abrupt v).
Proof.
  unfold is_error_object. intros Hf Hi Hp Hpe Hc Hthrow.
  by rewrite (err_class_branch _ _ _ _ Hf Hi Hp Hpe), Hc, Hthrow.
Qed.

Lemma err_constructor_throw_propagates_witness :
  err (VObject 8) [num 1 I] (start_with classes_code realm_with_classes) =
    (with_heap (start_with classes_code realm_with_classes)
       (realm_with_classes ++ [error_object "TypeError" "refused" TypeError_prototype]),
     Abrupt (VObject 9)).
Proof.
  apply (err_constructor_throw_propagates
           (start_with classes_code realm_with_classes) 8 6 [num 1 I]
           refusing_constructor
           (realm_with_classes ++ [error_object "TypeError" "refused" TypeError_prototype])
           (VObject 9)); reflexivity.
Defined.

(** Every run of [err] on a value that is not a function: the heap grows
    by at most one object, and a returned result is the failure of an
    error object. *)
Lemma err_run (st : state) (x : value) (args : list value) :
  String.eqb (typeof (st_heap st) x) "function" = false ->
  exists os,
    st_heap (fst (err x args st)) = st_heap st ++ os
    /\ length os <= 1
    /\ forall r,
         snd (err x args st) = Normal r ->
         r = {| r_ok := false; r_val := VUndefined; r_err := r_err r |}
         /\ instanceof_Error (st_heap st ++ os) (r_err r) = true.
Proof.
  intros Hf.
  destruct (is_text x) eqn:Ht.
  { destruct x; try discriminate.
    exists [error_object "Error" s Error_prototype].
    split; [reflexivity | split; [simpl; lia |]].
    intros r [= <-]. split; [reflexivity | by apply instanceof_Error_fresh]. }
  destruct (instanceof_Error (st_heap st) x) eqn:Hi.
  { exists []. rewrite (err_error_object _ _ _ Hi). simpl. rewrite app_nil_r.
    split; [reflexivity | split; [lia |]].
    intros r [= <-]. auto. }
  rewrite (err_misuse _ _ _ Ht Hi) by (by rewrite Hf).
  eexists [_]. split; [reflexivity | split; [simpl; lia | discriminate]].
Qed.

(** X4.  For a first argument that is not a function, feeding the error of
    the result of [err] back to [err], in the state the first call left
    and with any further arguments, returns the same result and changes
    nothing: [err(err(x).err)] is [err(x)]. *)
Theorem err_of_its_own_error
    (st st' : state) (x : value) (args args' : list value) (r : result) :
  String.eqb (typeof (st_heap st) x) "function" = false ->
  err x args st = (st', Normal r) ->
  err (r_err r) args' st' = (st', Normal r).
Proof.
  intros Hf H. destruct (err_run st x args Hf) as (os & Hh & _ & Hr).
  rewrite H in Hh, Hr. simpl in Hh, Hr.
  destruct (Hr r eq_refl) as (Hshape & He). rewrite <- Hh in He.
  rewrite (err_error_object _ _ _ He). by rewrite <- Hshape.
Qed.

Lemma err_of_its_own_error_witness :
  err (VObject 6) [num 7 I]
    (extend (start realm) (error_object "Error" "m" Error_prototype)) =
    (extend (start realm) (error_object "Error" "m" Error_prototype),
     Normal {| r_ok := false; r_val := VUndefined; r_err := VObject 6 |}).
Proof.
  apply (err_of_its_own_error (start realm)
           (extend (start realm) (error_object "Error" "m" Error_prototype))
           (VString "m") [] [num 7 I]
           {| r_ok := false; r_val := VUndefined; r_err := VObject 6 |});
    reflexivity.
Defined.

(** X5.  For a first argument that is not a function, on every path, the
    throwing one included, [err] leaves the objects of the heap as they
    were and adds at most one object; it makes no call of the
    transformer. *)
Theorem err_allocates_at_most_one (st : state) (x : value) (args : list value) :
  String.eqb (typeof (st_heap st) x) "function" = false ->
  exists os,
    st_heap (fst (err x args st)) = st_heap st ++ os
    /\ length os <= 1
    /\ st_calls (fst (err x args st)) = st_calls st.
Proof.
  intros Hf. destruct (err_run st x args Hf) as (os & Hh & Hl & _).
  exists os. split; [exact Hh | split; [exact Hl | apply err_calls]].
Qed.

Lemma err_allocates_at_most_one_witness :
  exists os,
    st_heap (fst (err (num 1 I) [] (start realm))) = realm ++ os
    /\ length os <= 1
    /\ st_calls (fst (err (num 1 I) [] (start realm))) = [].
Proof.
  apply (err_allocates_at_most_one (start realm) (num 1 I) []). reflexivity.
Defined.

(** ** The remaining paths of [tryCatch] *)

(** With the default transformer [makeErrorResult] is [err] of the
    normalized error. *)
Lemma makeErrorResult_default (st st2 : state) (v error : value) :
  normalize v st = (st2, Normal error) ->
  makeErrorResult default_transformer v st =
    err error [] (called st (st_heap st2) error).
Proof.
  intros Hn.
  by rewrite (makeErrorResult_run st st2 default_transformer v error
                (st_heap st2) (Normal error) Hn eq_refl).
Qed.

(** X6.  With the default transformer, an error object that the
    computation throws, or that its deferred value rejects with, comes
    back as the error of the failure result: the same reference, with
    nothing allocated. *)
Theorem tryCatch_hands_back_error_object :
  (forall (st : state) (expression : computation) (h1 : heap) (v : value),
      expression (st_heap st) = (h1, Abrupt v) ->
      is_error_object h1 v = true ->
      tryCatch expression default_transformer st =
        (called st h1 v,
         Normal (Plain {| r_ok := false; r_val := VUndefined; r_err := v |})))
  /\
  (forall (st : state) (v : value),
      is_error_object (st_heap st) v = true ->
      await default_transformer (Deferred (Rejects v)) st =
        (called st (st_heap st) v,
         Fulfils {| r_ok := false; r_val := VUndefined; r_err := v |})).
Proof.
  unfold is_error_object. split.
  - intros st expression h1 v He Hv.
    rewrite (tryCatch_throw _ _ _ _ _ He). unfold bind at 1.
    rewrite (makeErrorResult_default _ (with_heap st h1) _ v)
      by (by apply normalize_error_object).
    by rewrite err_error_object.
  - intros st v Hv. rewrite await_rejected.
    rewrite (makeErrorResult_default _ st _ v) by (by apply normalize_error_object).
    by rewrite err_error_object.
Qed.

(** [tryCatch(() => { throw new Error('other') })] and
    [tryCatch(() => Promise.reject(new Error('unexpected error')))]. *)
Lemma tryCatch_hands_back_error_object_witness :
  tryCatch throws_other default_transformer (start realm) =
    (called (start realm) (realm ++ [error_object "Error" "other" Error_prototype])
       (VObject 6),
     Normal (Plain {| r_ok := false; r_val := VUndefined; r_err := VObject 6 |}))
  /\ await default_transformer (Deferred (Rejects (VObject 10)))
       (start realm_with_promises) =
     (called (start realm_with_promises) realm_with_promises (VObject 10),
      Fulfils {| r_ok := false; r_val := VUndefined; r_err := VObject 10 |}).
Proof.
  split.
  - apply (proj1 tryCatch_hands_back_error_object (start realm) throws_other
             (realm ++ [error_object "Error" "other" Error_prototype]) (VObject 6));
      reflexivity.
  - apply (proj2 tryCatch_hands_back_error_object (start realm_with_promises)
             (VObject 10)).
    reflexivity.
Defined.

(** X7.  With the default transformer, a value that is not an error object
    and converts to the text [s] comes back as a failure whose error is a
    new [Error] with the message
    "Unexpected throw value '<s>' of type <typeof value>", both when the
    computation throws the value and when its deferred value rejects with
    it. *)
Theorem tryCatch_wraps_other_raised_values :
  (forall (st : state) (expression : computation) (h1 : heap) (v : value) (s : string),
      expression (st_heap st) = (h1, Abrupt v) ->
      is_error_object h1 v = false ->
      rendering h1 v = Some s ->
      let o := error_object "Error" (unexpected_throw_message s (typeof h1 v))
                 Error_prototype in
      let e := VObject (length h1) in
      tryCatch expression default_transformer st =
        (called st (h1 ++ [o]) e,
         Normal (Plain {| r_ok := false; r_val := VUndefined; r_err := e |}))
      /\ message_of (h1 ++ [o]) e
         = Some (VString (unexpected_throw_message s (typeof h1 v))))
  /\
  (forall (st : state) (v : value) (s : string),
      is_error_object (st_heap st) v = false ->
      rendering (st_heap st) v = Some s ->
      let o := error_object "Error"
                 (unexpected_throw_message s (typeof (st_heap st) v)) Error_prototype in
      let e := VObject (length (st_heap st)) in
      await default_transformer (Deferred (Rejects v)) st =
        (called st (st_heap st ++ [o]) e,
         Fulfils {| r_ok := false; r_val := VUndefined; r_err := e |})
      /\ message_of (st_heap st ++ [o]) e
         = Some (VString (unexpected_throw_message s (typeof (st_heap st) v)))).
Proof.
  split.
  - intros st expression h1 v s He Hv Hs o e. unfold is_error_object in Hv.
    split; [| apply error_object_message].
    rewrite (tryCatch_throw _ _ _ _ _ He). unfold bind at 1.
    rewrite (makeErrorResult_default _ (extend (with_heap st h1) o) _ e)
      by (by apply (normalize_other (with_heap st h1))).
    rewrite err_error_object by (by apply instanceof_Error_fresh). reflexivity.
  - intros st v s Hv Hs o e. unfold is_error_object in Hv.
    split; [| apply error_object_message].
    rewrite await_rejected.
    rewrite (makeErrorResult_default _ (extend st o) _ e)
      by (by apply normalize_other).
    rewrite err_error_object by (by apply instanceof_Error_fresh). reflexivity.
Qed.

(** [tryCatch(() => { throw null })] and
    [tryCatch(() => Promise.reject(42))]. *)
Lemma tryCatch_wraps_other_raised_values_witness :
  (exists st',
     tryCatch (fun h => (h, Abrupt VNull)) default_transformer (start realm) =
       (st', Normal (Plain {| r_ok := false; r_val := VUndefined; r_err := VObject 6 |}))
     /\ message_of (st_heap st') (VObject 6)
        = Some (VString "Unexpected throw value 'null' of type object"))
  /\
  (exists st',
     await default_transformer (Deferred (Rejects (num 42 I))) (start realm) =
       (st', Fulfils {| r_ok := false; r_val := VUndefined; r_err := VObject 6 |})
     /\ message_of (st_heap st') (VObject 6)
        = Some (VString "Unexpected throw value '42' of type number")).
Proof.
  split.
  - destruct (proj1 tryCatch_wraps_other_raised_values (start realm)
                (fun h => (h, Abrupt VNull)) realm VNull "null"
                eq_refl eq_refl eq_refl) as [Hrun Hmsg].
    eexists. split; [exact Hrun | exact Hmsg].
  - destruct (proj2 tryCatch_wraps_other_raised_values (start realm)
                (num 42 I) "42" eq_refl eq_refl) as [Hrun Hmsg].
    eexists. split; [exact Hrun | exact Hmsg].
Defined.

(** X8.  A transformer may return a text instead of an error object: the
    result of the transformer goes through [err], so the failure result
    then carries a new [Error] whose message is that text, on the
    synchronous path and on the deferred one. *)
Theorem transformer_text_becomes_error :
  (forall (st st2 : state) (expression : computation) (tr : transformer)
          (h1 h3 : heap) (v error : value) (m : string),
      expression (st_heap st) = (h1, Abrupt v) ->
      normalize v (with_heap st h1) = (st2, Normal error) ->
      tr error (st_heap st2) = (h3, Normal (VString m)) ->
      tryCatch expression tr st =
        (extend (called st h3 error) (error_object "Error" m Error_prototype),
         Normal (Plain {| r_ok := false; r_val := VUndefined;
                          r_err := VObject (length h3) |})))
  /\
  (forall (st st2 : state) (tr : transformer) (h3 : heap) (v error : value) (m : string),
      normalize v st = (st2, Normal error) ->
      tr error (st_heap st2) = (h3, Normal (VString m)) ->
      await tr (Deferred (Rejects v)) st =
        (extend (called st h3 error) (error_object "Error" m Error_prototype),
         Fulfils {| r_ok := false; r_val := VUndefined;
                    r_err := VObject (length h3) |})).
Proof.
  split.
  - intros st st2 expression tr h1 h3 v error m He Hn Ht.
    rewrite (tryCatch_throw _ _ _ _ _ He). unfold bind at 1.
    by rewrite (makeErrorResult_run _ _ _ _ _ _ _ Hn Ht).
  - intros st st2 tr h3 v error m Hn Ht.
    rewrite await_rejected.
    by rewrite (makeErrorResult_run _ _ _ _ _ _ _ Hn Ht).
Qed.

Lemma transformer_text_becomes_error_witness :
  (exists st',
     tryCatch throws_other returns_text (start realm) =
       (st', Normal (Plain {| r_ok := false; r_val := VUndefined; r_err := VObject 7 |}))
     /\ message_of (st_heap st') (VObject 7) = Some (VString "replaced"))
  /\
  (exists st',
     await returns_text (Deferred (Rejects (VObject 10))) (start realm_with_promises) =
       (st', Fulfils {| r_ok := false; r_val := VUndefined; r_err := VObject 19 |})
     /\ message_of (st_heap st') (VObject 19) = Some (VString "replaced")).
Proof.
  split.
  - eexists. split.
    + apply (proj1 transformer_text_becomes_error (start realm)
               (with_heap (start realm) (realm ++ [error_object "Error" "other" Error_prototype]))
               throws_other returns_text
               (realm ++ [error_object "Error" "other" Error_prototype])
               (realm ++ [error_object "Error" "other" Error_prototype])
               (VObject 6) (VObject 6) "replaced"); reflexivity.
    + vm_compute. reflexivity.
  - eexists. split.
    + apply (proj2 transformer_text_becomes_error (start realm_with_promises)
               (start realm_with_promises) returns_text realm_with_promises
               (VObject 10) (VObject 10) "replaced"); reflexivity.
    + vm_compute. reflexivity.
Defined.

(** X9.  When the transformer returns a value that is not a text, not an
    error object and not a function with an error prototype
    ([undefined], say, from a transformer that forgets to return), the
    failure is not built: [tryCatch] throws a new [Error] with the misuse
    message of [err] on the synchronous path, and the deferred result
    rejects with it on the deferred one. *)
Theorem transformer_other_value_raises_misuse :
  (forall (st st2 : state) (expression : computation) (tr : transformer)
          (h1 h3 : heap) (v error replaced : value),
      expression (st_heap st) = (h1, Abrupt v) ->
      normalize v (with_heap st h1) = (st2, Normal error) ->
      tr error (st_heap st2) = (h3, Normal replaced) ->
      is_text replaced = false ->
      is_error_object h3 replaced = false ->
      has_error_prototype h3 replaced = false ->
      let o := error_object "Error" misuse_message Error_prototype in
      tryCatch expression tr st =
        (extend (called st h3 error) o, Abrupt (VObject (length h3)))
      /\ message_of (h3 ++ [o]) (VObject (length h3)) = Some (VString misuse_message))
  /\
  (forall (st st2 : state) (tr : transformer) (h3 : heap) (v error replaced : value),
      normalize v st = (st2, Normal error) ->
      tr error (st_heap st2) = (h3, Normal replaced) ->
      is_text replaced = false ->
      is_error_object h3 replaced = false ->
      has_error_prototype h3 replaced = false ->
      let o := error_object "Error" misuse_message Error_prototype in
      await tr (Deferred (Rejects v)) st =
        (extend (called st h3 error) o, Rejects (VObject (length h3)))
      /\ message_of (h3 ++ [o]) (VObject (length h3)) = Some (VString misuse_message)).
Proof.
  split.
  - intros st st2 expression tr h1 h3 v error replaced He Hn Ht Htext Hobj Hclass o.
    split; [| apply error_object_message].
    rewrite (tryCatch_throw _ _ _ _ _ He). unfold bind at 1.
    rewrite (makeErrorResult_run _ _ _ _ _ _ _ Hn Ht).
    by rewrite (err_misuse_of_other (called st h3 error)).
  - intros st st2 tr h3 v error replaced Hn Ht Htext Hobj Hclass o.
    split; [| apply error_object_message].
    rewrite await_rejected.
    rewrite (makeErrorResult_run _ _ _ _ _ _ _ Hn Ht).
    by rewrite (err_misuse_of_other (called st h3 error)).
Qed.

Lemma transformer_other_value_raises_misuse_witness :
  snd (tryCatch throws_other returns_nothing (start realm)) = Abrupt (VObject 7)
  /\ snd (await returns_nothing (Deferred (Rejects (VObject 10)))
            (start realm_with_promises)) = Rejects (VObject 19).
Proof.
  split.
  - destruct (proj1 transformer_other_value_raises_misuse (start realm)
                (with_heap (start realm) (realm ++ [error_object "Error" "other" Error_prototype]))
                throws_other returns_nothing
                (realm ++ [error_object "Error" "other" Error_prototype])
                (realm ++ [error_object "Error" "other" Error_prototype])
                (VObject 6) (VObject 6) VUndefined
                eq_refl eq_refl eq_refl eq_refl eq_refl eq_refl) as [Hrun _].
    by rewrite Hrun.
  - destruct (proj2 transformer_other_value_raises_misuse (start realm_with_promises)
                (start realm_with_promises) returns_nothing realm_with_promises
                (VObject 10) (VObject 10) VUndefined
                eq_refl eq_refl eq_refl eq_refl eq_refl) as [Hrun _].
    by rewrite Hrun.
Defined.

(** X10.  A raised value that is not an error object and has no conversion
    to text (a symbol, an object without one) is not turned into a
    result: the conversion raises a new TypeError, which [tryCatch] throws
    on the synchronous path and the deferred result rejects with on the
    deferred one; the transformer is not called. *)
Theorem raised_value_without_text_escapes :
  (forall (st : state) (expression : computation) (tr : transformer)
          (h1 : heap) (v : value),
      expression (st_heap st) = (h1, Abrupt v) ->
      is_error_object h1 v = false ->
      rendering h1 v = None ->
      exists msg,
        tryCatch expression tr st =
          (extend (with_heap st h1) (error_object "TypeError" msg TypeError_prototype),
           Abrupt (VObject (length h1))))
  /\
  (forall (st : state) (tr : transformer) (v : value),
      is_error_object (st_heap st) v = false ->
      rendering (st_heap st) v = None ->
      exists msg,
        await tr (Deferred (Rejects v)) st =
          (extend st (error_object "TypeError" msg TypeError_prototype),
           Rejects (VObject (length (st_heap st))))).
Proof.
  unfold is_error_object. split.
  - intros st expression tr h1 v He Hv Hr.
    destruct (normalize_no_rendering (with_heap st h1) v Hv Hr) as [msg Hn].
    exists msg. rewrite (tryCatch_throw _ _ _ _ _ He).
    unfold bind at 1, makeErrorResult, bind. by rewrite Hn.
  - intros st tr v Hv Hr.
    destruct (normalize_no_rendering st v Hv Hr) as [msg Hn].
    exists msg. rewrite await_rejected. unfold makeErrorResult, bind. by rewrite Hn.
Qed.

(** [tryCatch(() => { throw Object.create(null) })] and a rejection with a
    symbol. *)
Lemma raised_value_without_text_escapes_witness :
  (exists msg,
     tryCatch (fun h => (h, Abrupt (VObject 6))) default_transformer
       (start realm_with_bare_object) =
       (extend (start realm_with_bare_object)
          (error_object "TypeError" msg TypeError_prototype),
        Abrupt (VObject 7)))
  /\
  (exists msg,
     await default_transformer (Deferred (Rejects (VSymbol 0))) (start realm) =
       (extend (start realm) (error_object "TypeError" msg TypeError_prototype),
        Rejects (VObject 6))).
Proof.
  split.
  - apply (proj1 raised_value_without_text_escapes (start realm_with_bare_object)
             (fun h => (h, Abrupt (VObject 6))) default_transformer
             realm_with_bare_object (VObject 6)); reflexivity.
  - apply (proj2 raised_value_without_text_escapes (start realm) default_transformer
             (VSymbol 0)); reflexivity.
Defined.

(** X12.  When the computation throws, whatever [tryCatch] returns is a
    plain failure: never a success and never a deferred result, whatever
    the thrown value and the transformer. *)
Theorem tryCatch_throw_never_succeeds
    (st st' : state) (expression : computation) (tr : transformer)
    (h1 : heap) (v : value) (d : returned) :
  expression (st_heap st) = (h1, Abrupt v) ->
  tryCatch expression tr st = (st', Normal d) ->
  exists r,
    d = Plain r
    /\ r_ok r = false
    /\ r_val r = VUndefined
    /\ exists l, r_err r = VObject l.
Proof.
  intros He. rewrite (tryCatch_throw _ _ _ _ _ He). unfold bind at 1.
  destruct (makeErrorResult tr v (with_heap st h1)) as [st1 [r1|x]] eqn:Hm;
    [| discriminate].
  intros [= <- <-]. exists r1.
  apply makeErrorResult_invariant in Hm as [Hok Hinv].
  unfold variant_invariant in Hinv. rewrite Hok in Hinv.
  destruct Hinv as (Hval & l & Hl & _). eauto 6.
Qed.

Lemma tryCatch_throw_never_succeeds_witness :
  exists r,
    Plain {| r_ok := false; r_val := VUndefined; r_err := VObject 7 |} = Plain r
    /\ r_ok r = false
    /\ r_val r = VUndefined
    /\ exists l, r_err r = VObject l.
Proof.
  apply (tryCatch_throw_never_succeeds (start realm)
           (extend (called (start realm)
                      (realm ++ [error_object "Error" "other" Error_prototype])
                      (VObject 6))
              (error_object "Error" "replaced" Error_prototype))
           throws_other returns_text
           (realm ++ [error_object "Error" "other" Error_prototype]) (VObject 6));
    reflexivity.
Defined.
